(** * StockAnalyzer (src/src/analyzer.py): indicator and signal engine

    A shallow embedding of the [StockAnalyzer] class.

    - A pandas float64 is a primitive binary64 [float]; the undefined value is
      [nan], and [>] / [<] are the IEEE comparisons (false on [nan]).
    - A [DataFrame] is a row count with a map from column names to columns.
      DataFrames are mutable objects: they live in a [heap], and a frame is
      referred to by its location.  [copy] allocates a new object, a column
      assignment [df[k] = col] updates the object in place.
    - The object state is the pair of attributes [self.data], [self.signals].
    - A method is a computation in a state-and-exception monad [M].
    - The result dictionaries are maps from keys to values.
    - The indicator classes of the [ta] package and the numeric routines of
      pandas/numpy are not part of the repository: the columns they yield are
      the interface [TALib], a parameter of the development.  The one call
      that can fail on a frame holding its columns, [AverageTrueRange] on
      fewer rows than its window, raises as the package does. *)

From Stdlib Require Import Floats ZArith.
From stdpp Require Import gmap strings list fin_maps pretty.

Local Open Scope Z_scope.
Local Open Scope nat_scope.
Local Open Scope string_scope.

(** ** Values *)

(** Python's [a > b] and [a < b] on float64. *)
Definition fgt (a b : float) : bool := PrimFloat.ltb b a.
Definition flt (a b : float) : bool := PrimFloat.ltb a b.

(** [x != x], the test pandas uses for a missing value. *)
Definition isna (x : float) : bool := negb (PrimFloat.eqb x x).

(** What a result dictionary holds: a number or a label. *)
Inductive Value : Type :=
  | VNum (x : float)
  | VStr (s : string).

Abbreviation Dict := (gmap string Value).

(** A row of a frame ([df.iloc[i]]): column name to scalar. *)
Abbreviation Row := (gmap string float).

(** ** Frames and the object store *)

Record DataFrame : Type := mkDF {
  nrows : nat;
  columns : gmap string (list float)
}.

Abbreviation loc := positive.

Record State : Type := mkState {
  heap : gmap loc DataFrame;
  data : loc;          (* self.data *)
  signals : Dict       (* self.signals *)
}.

Inductive exn : Type :=
  | IndexError
  | KeyError (k : string).


Inductive Res (A : Type) : Type :=
  | Ok (a : A)
  | Raise (e : exn).
Arguments Ok {A} a.
Arguments Raise {A} e.

(** ** The monad of methods *)

Definition M (A : Type) : Type := State -> Res A * State.

Definition ret {A} (a : A) : M A := fun st => (Ok a, st).

Definition bind {A B} (m : M A) (f : A -> M B) : M B :=
  fun st =>
    match m st with
    | (Ok a, st') => f a st'
    | (Raise e, st') => (Raise e, st')
    end.

Definition raise {A} (e : exn) : M A := fun st => (Raise e, st).

#[global] Instance M_ret : MRet M := @ret.
#[global] Instance M_bind : MBind M := fun A B f m => bind m f.

Definition get_data : M loc := fun st => (Ok (data st), st).

Definition set_data (l : loc) : M unit :=
  fun st => (Ok tt, mkState (heap st) l (signals st)).

Definition set_signals (d : Dict) : M unit :=
  fun st => (Ok tt, mkState (heap st) (data st) d).

Definition empty_frame : DataFrame := mkDF 0 ∅.

#[global] Instance DataFrame_inhabited : Inhabited DataFrame :=
  populate empty_frame.

(** Reading the object behind a reference.  A running program only holds
    references to live objects; a location the store lacks reads as the empty
    frame. *)
Definition deref (l : loc) : M DataFrame :=
  fun st => (Ok (heap st !!! l), st).

Definition alloc (fr : DataFrame) : M loc :=
  fun st =>
    let l := fresh (dom (heap st)) in
    (Ok l, mkState (<[l := fr]> (heap st)) (data st) (signals st)).

(** [df.copy()]: a new object with the same contents. *)
Definition copy (l : loc) : M loc :=
  fr ← deref l; alloc fr.

(** [k in df.columns] *)
Definition has_column (l : loc) (k : string) : M bool :=
  fr ← deref l; mret (bool_decide (is_Some (columns fr !! k))).

(** [df[k]] *)
Definition getcol (l : loc) (k : string) : M (list float) :=
  fr ← deref l;
  match columns fr !! k with
  | Some c => mret c
  | None => raise (KeyError k)
  end.

(** [df[k] = col]: in-place update of the object at [l]. *)
Definition setcol (l : loc) (k : string) (col : list float) : M unit :=
  fun st =>
    let fr := heap st !!! l in
    (Ok tt, mkState (<[l := mkDF (nrows fr) (<[k := col]> (columns fr))]> (heap st))
                    (data st) (signals st)).

(** The row at position [i]; a column that does not reach [i] reads [nan]. *)
Definition row_at (i : nat) (fr : DataFrame) : Row :=
  (fun col : list float => default nan (col !! i)) <$> columns fr.

(** [df.iloc[i]] for an integer [i]: negative positions count from the end,
    a position outside the frame raises [IndexError]. *)
Definition iloc (l : loc) (i : Z) : M Row :=
  fr ← deref l;
  let n := Z.of_nat (nrows fr) in
  let j := if (i <? 0)%Z then (n + i)%Z else i in
  if ((0 <=? j)%Z && (j <? n)%Z)%bool
  then mret (row_at (Z.to_nat j) fr)
  else raise IndexError.

(** [row[k]] *)
Definition getitem (r : Row) (k : string) : M float :=
  match r !! k with
  | Some x => mret x
  | None => raise (KeyError k)
  end.

(** [d[k]] on a result dictionary. *)
Definition dict_get (d : Dict) (k : string) : M Value :=
  match d !! k with
  | Some v => mret v
  | None => raise (KeyError k)
  end.

(** [series.dropna()] and [series * x]. *)
Definition dropna (c : list float) : list float :=
  filter (fun x => isna x = false) c.

Definition scale (c : list float) (x : float) : list float :=
  (fun y => PrimFloat.mul y x) <$> c.

(** ** The external numeric library

    The indicator classes of [ta] (each takes its input columns and window
    lengths and yields a column indexed like its input) and the pandas/numpy
    routines the analyzer calls.  The fields below are the columns they
    yield, with [nan] where the indicator is undefined.  One of the calls can
    raise: see [AverageTrueRange] below, of which [average_true_range] is the
    column on a frame of at least [window] rows. *)

Class TALib : Type := {
  (* SMAIndicator(close, window).sma_indicator() *)
  sma_indicator : list float -> nat -> list float;
  (* EMAIndicator(close, window).ema_indicator() *)
  ema_indicator : list float -> nat -> list float;
  (* MACD(close).macd(), .macd_signal(), .macd_diff() *)
  macd : list float -> list float;
  macd_signal : list float -> list float;
  macd_diff : list float -> list float;
  (* RSIIndicator(close, window).rsi() *)
  rsi : list float -> nat -> list float;
  (* BollingerBands(close, window, window_dev): hband, mavg, lband *)
  bollinger_hband : list float -> nat -> nat -> list float;
  bollinger_mavg : list float -> nat -> nat -> list float;
  bollinger_lband : list float -> nat -> nat -> list float;
  (* StochasticOscillator(high, low, close, window, smooth_window) *)
  stoch : list float -> list float -> list float -> nat -> nat -> list float;
  stoch_signal : list float -> list float -> list float -> nat -> nat -> list float;
  (* AverageTrueRange(high, low, close, window).average_true_range() *)
  average_true_range : list float -> list float -> list float -> nat -> list float;
  (* OnBalanceVolumeIndicator(close, volume).on_balance_volume() *)
  on_balance_volume : list float -> list float -> list float;
  (* Series.pct_change(), Series.diff(), Series.std() *)
  pct_change : list float -> list float;
  diff : list float -> list float;
  std : list float -> float;
  (* np.sqrt *)
  np_sqrt : float -> float
}.

(** [AverageTrueRange(high, low, close, window).average_true_range()].
    The indicator seeds its smoothing at position [window - 1] of an array of
    [len(close)] entries: on a frame of fewer than [window] rows that position
    does not exist and the call raises [IndexError] (index [window - 1] out of
    bounds for an axis of that size). *)
Definition AverageTrueRange `{TALib} (high low close : list float) (window : nat)
    : M (list float) :=
  if Nat.ltb (length close) window then raise IndexError
  else mret (average_true_range high low close window).

(** ** Input series *)

(** One OHLCV bar; the time stamp is the index of the frame. *)
Record Bar : Type := mkBar {
  bOpen : float;
  bHigh : float;
  bLow : float;
  bClose : float;
  bVolume : float
}.

(** The frame a data source hands over for a series of bars. *)
Definition frame_of_series (s : list Bar) : DataFrame :=
  mkDF (length s)
       (<["Volume" := bVolume <$> s]>
        (<["Close" := bClose <$> s]>
         (<["Low" := bLow <$> s]>
          (<["High" := bHigh <$> s]>
           (<["Open" := bOpen <$> s]> ∅))))).

(** ** Labels *)

Definition UPTREND : string := "Восходящий".
Definition DOWNTREND : string := "Нисходящий".
Definition SIDEWAYS : string := "Боковой".
Definition GOLDEN_CROSS : string := "Восходящий (Golden Cross)".
Definition DEATH_CROSS : string := "Нисходящий (Death Cross)".
Definition NEUTRAL_TREND : string := "Нейтральный".
Definition OVERBOUGHT : string := "Перекупленность".
Definition OVERSOLD : string := "Перепроданность".
Definition NEUTRAL : string := "Нейтрально".
Definition BULLISH : string := "Бычий".
Definition BEARISH : string := "Медвежий".
Definition ABOVE_BAND : string := "Выше верхней полосы (перекупленность)".
Definition BELOW_BAND : string := "Ниже нижней полосы (перепроданность)".
Definition WITHIN_BANDS : string := "В пределах полос".
Definition BUY : string := "ПОКУПАТЬ".
Definition SELL : string := "ПРОДАВАТЬ".
Definition HOLD : string := "ДЕРЖАТЬ".

(** [v == s] for a dictionary value and a string literal. *)
Definition value_is (v : Value) (s : string) : bool :=
  match v with
  | VStr t => String.eqb t s
  | VNum _ => false
  end.

(** ** The class *)

(** [StockAnalyzer(data)]: [self.data = data.copy()], [self.signals = {}]. *)
Definition StockAnalyzer (h : gmap loc DataFrame) (d : loc) : State :=
  let l := fresh (dom h) in
  mkState (<[l := h !!! d]> h) l ∅.

Section Methods.
Context `{TALib}.

Definition add_technical_indicators : M loc :=
  self_data ← get_data;
  df ← copy self_data;
  c ← getcol df "Close"; setcol df "SMA_20" (sma_indicator c 20);;
  c ← getcol df "Close"; setcol df "SMA_50" (sma_indicator c 50);;
  c ← getcol df "Close"; setcol df "SMA_200" (sma_indicator c 200);;
  c ← getcol df "Close"; setcol df "EMA_12" (ema_indicator c 12);;
  c ← getcol df "Close"; setcol df "EMA_26" (ema_indicator c 26);;
  macd_close ← getcol df "Close";
  setcol df "MACD" (macd macd_close);;
  setcol df "MACD_Signal" (macd_signal macd_close);;
  setcol df "MACD_Diff" (macd_diff macd_close);;
  c ← getcol df "Close"; setcol df "RSI" (rsi c 14);;
  bb_close ← getcol df "Close";
  setcol df "BB_Upper" (bollinger_hband bb_close 20 2);;
  setcol df "BB_Middle" (bollinger_mavg bb_close 20 2);;
  setcol df "BB_Lower" (bollinger_lband bb_close 20 2);;
  st_high ← getcol df "High";
  st_low ← getcol df "Low";
  st_close ← getcol df "Close";
  setcol df "Stoch_K" (stoch st_high st_low st_close 14 3);;
  setcol df "Stoch_D" (stoch_signal st_high st_low st_close 14 3);;
  hi ← getcol df "High"; lo ← getcol df "Low"; c ← getcol df "Close";
  atr ← AverageTrueRange hi lo c 14;
  setcol df "ATR" atr;;
  c ← getcol df "Close"; v ← getcol df "Volume";
  setcol df "OBV" (on_balance_volume c v);;
  c ← getcol df "Close";
  setcol df "Daily_Return" (scale (pct_change c) 100%float);;
  c ← getcol df "Close"; setcol df "Price_Change" (diff c);;
  set_data df;;
  mret df.

(** [if k not in self.data.columns: self.add_technical_indicators()] *)
Definition ensure_indicators (k : string) : M unit :=
  d ← get_data;
  present ← has_column d k;
  if negb present then add_technical_indicators;; mret tt else mret tt.

(** The row values read for the dictionary literal are the ones the
    comparisons below it read again: a row does not change once taken. *)
Definition analyze_trend : M Dict :=
  ensure_indicators "SMA_20";;
  d ← get_data; latest ← iloc d (-1)%Z;
  d ← get_data; prev ← iloc d (-2)%Z;
  close ← getitem latest "Close";
  sma_20 ← getitem latest "SMA_20";
  sma_50 ← getitem latest "SMA_50";
  sma_200 ← getitem latest "SMA_200";
  let trend_info : Dict :=
    <["sma_200" := VNum sma_200]>
    (<["sma_50" := VNum sma_50]>
     (<["sma_20" := VNum sma_20]>
      (<["current_price" := VNum close]> ∅))) in
  let trend_info :=
    if (fgt close sma_20 && fgt sma_20 sma_50)%bool
    then <["short_term_trend" := VStr UPTREND]> trend_info
    else if (flt close sma_20 && flt sma_20 sma_50)%bool
    then <["short_term_trend" := VStr DOWNTREND]> trend_info
    else <["short_term_trend" := VStr SIDEWAYS]> trend_info in
  let trend_info :=
    if fgt sma_50 sma_200
    then <["long_term_trend" := VStr GOLDEN_CROSS]> trend_info
    else if flt sma_50 sma_200
    then <["long_term_trend" := VStr DEATH_CROSS]> trend_info
    else <["long_term_trend" := VStr NEUTRAL_TREND]> trend_info in
  mret trend_info.

Definition analyze_momentum : M Dict :=
  ensure_indicators "RSI";;
  d ← get_data; latest ← iloc d (-1)%Z;
  rsi_v ← getitem latest "RSI";
  macd_v ← getitem latest "MACD";
  macd_sig ← getitem latest "MACD_Signal";
  stoch_k ← getitem latest "Stoch_K";
  stoch_d ← getitem latest "Stoch_D";
  let momentum_info : Dict :=
    <["stoch_d" := VNum stoch_d]>
    (<["stoch_k" := VNum stoch_k]>
     (<["macd_signal" := VNum macd_sig]>
      (<["macd" := VNum macd_v]>
       (<["rsi" := VNum rsi_v]> ∅)))) in
  let momentum_info :=
    if fgt rsi_v 70%float
    then <["rsi_signal" := VStr OVERBOUGHT]> momentum_info
    else if flt rsi_v 30%float
    then <["rsi_signal" := VStr OVERSOLD]> momentum_info
    else <["rsi_signal" := VStr NEUTRAL]> momentum_info in
  let momentum_info :=
    if fgt macd_v macd_sig
    then <["macd_signal" := VStr BULLISH]> momentum_info
    else <["macd_signal" := VStr BEARISH]> momentum_info in
  let momentum_info :=
    if fgt stoch_k 80%float
    then <["stoch_signal" := VStr OVERBOUGHT]> momentum_info
    else if flt stoch_k 20%float
    then <["stoch_signal" := VStr OVERSOLD]> momentum_info
    else <["stoch_signal" := VStr NEUTRAL]> momentum_info in
  mret momentum_info.

Definition analyze_volatility : M Dict :=
  ensure_indicators "BB_Upper";;
  d ← get_data; latest ← iloc d (-1)%Z;
  d ← get_data; c ← getcol d "Close";
  let returns := dropna (pct_change c) in
  let historical_volatility :=
    PrimFloat.mul (PrimFloat.mul (std returns) (np_sqrt 252%float)) 100%float in
  close ← getitem latest "Close";
  bb_upper ← getitem latest "BB_Upper";
  bb_middle ← getitem latest "BB_Middle";
  bb_lower ← getitem latest "BB_Lower";
  atr ← getitem latest "ATR";
  let volatility_info : Dict :=
    <["historical_volatility" := VNum historical_volatility]>
    (<["atr" := VNum atr]>
     (<["bb_lower" := VNum bb_lower]>
      (<["bb_middle" := VNum bb_middle]>
       (<["bb_upper" := VNum bb_upper]>
        (<["current_price" := VNum close]> ∅))))) in
  let volatility_info :=
    if fgt close bb_upper
    then <["bb_position" := VStr ABOVE_BAND]> volatility_info
    else if flt close bb_lower
    then <["bb_position" := VStr BELOW_BAND]> volatility_info
    else <["bb_position" := VStr WITHIN_BANDS]> volatility_info in
  mret volatility_info.

(** The tally of [generate_signals]: the pair [(buy_signals, sell_signals)].
    Below, [a > b] on the counters is [Nat.ltb b a]. *)
Definition count_votes (trend momentum : Dict) : M (nat * nat) :=
  let buy_signals := 0 in
  let sell_signals := 0 in
  t ← dict_get trend "short_term_trend";
  '(buy_signals, sell_signals) ←
    (if value_is t UPTREND then mret (buy_signals + 1, sell_signals)
     else
       t ← dict_get trend "short_term_trend";
       if value_is t DOWNTREND then mret (buy_signals, sell_signals + 1)
       else mret (buy_signals, sell_signals));
  r ← dict_get momentum "rsi_signal";
  '(buy_signals, sell_signals) ←
    (if value_is r OVERSOLD then mret (buy_signals + 1, sell_signals)
     else
       r ← dict_get momentum "rsi_signal";
       if value_is r OVERBOUGHT then mret (buy_signals, sell_signals + 1)
       else mret (buy_signals, sell_signals));
  m ← dict_get momentum "macd_signal";
  if value_is m BULLISH then mret (buy_signals + 1, sell_signals)
  else mret (buy_signals, sell_signals + 1).

Definition generate_signals : M Dict :=
  trend ← analyze_trend;
  momentum ← analyze_momentum;
  volatility ← analyze_volatility;
  v_trend ← dict_get trend "short_term_trend";
  v_momentum ← dict_get momentum "rsi_signal";
  v_macd ← dict_get momentum "macd_signal";
  v_volatility ← dict_get volatility "bb_position";
  let sig : Dict :=
    <["volatility" := v_volatility]>
    (<["macd" := v_macd]>
     (<["momentum" := v_momentum]>
      (<["trend" := v_trend]> ∅))) in
  '(buy_signals, sell_signals) ← count_votes trend momentum;
  let sig :=
    if Nat.ltb sell_signals buy_signals
    then <["recommendation" := VStr BUY]> sig
    else if Nat.ltb buy_signals sell_signals
    then <["recommendation" := VStr SELL]> sig
    else <["recommendation" := VStr HOLD]> sig in
  let sig :=
    <["confidence" := VStr (pretty (Nat.max buy_signals sell_signals) +:+ "/3")]> sig in
  set_signals sig;;
  mret sig.

(** The dictionary [get_summary] returns, by key. *)
Record Summary : Type := mkSummary {
  sum_trend : Dict;
  sum_momentum : Dict;
  sum_volatility : Dict;
  sum_signals : Dict;
  sum_latest_data : Row
}.

Definition get_summary : M Summary :=
  add_technical_indicators;;
  trend ← analyze_trend;
  momentum ← analyze_momentum;
  volatility ← analyze_volatility;
  sig ← generate_signals;
  d ← get_data; latest ← iloc d (-1)%Z;
  mret (mkSummary trend momentum volatility sig latest).

End Methods.

(** ** What the methods compute, as functions of the series *)

Section Denotation.
Context `{TALib}.

Definition closes (s : list Bar) : list float := bClose <$> s.
Definition highs (s : list Bar) : list float := bHigh <$> s.
Definition lows (s : list Bar) : list float := bLow <$> s.
Definition volumes (s : list Bar) : list float := bVolume <$> s.

(** The columns [add_technical_indicators] assigns, in its order. *)
Definition indicator_columns (c hi lo v : list float)
    (m : gmap string (list float)) : gmap string (list float) :=
  <["Price_Change" := diff c]>
  (<["Daily_Return" := scale (pct_change c) 100%float]>
  (<["OBV" := on_balance_volume c v]>
  (<["ATR" := average_true_range hi lo c 14]>
  (<["Stoch_D" := stoch_signal hi lo c 14 3]>
  (<["Stoch_K" := stoch hi lo c 14 3]>
  (<["BB_Lower" := bollinger_lband c 20 2]>
  (<["BB_Middle" := bollinger_mavg c 20 2]>
  (<["BB_Upper" := bollinger_hband c 20 2]>
  (<["RSI" := rsi c 14]>
  (<["MACD_Diff" := macd_diff c]>
  (<["MACD_Signal" := macd_signal c]>
  (<["MACD" := macd c]>
  (<["EMA_26" := ema_indicator c 26]>
  (<["EMA_12" := ema_indicator c 12]>
  (<["SMA_200" := sma_indicator c 200]>
  (<["SMA_50" := sma_indicator c 50]>
  (<["SMA_20" := sma_indicator c 20]> m))))))))))))))))).

(** The columns assigned before the average true range is asked for. *)
Definition leading_columns (c hi lo : list float)
    (m : gmap string (list float)) : gmap string (list float) :=
  <["Stoch_D" := stoch_signal hi lo c 14 3]>
  (<["Stoch_K" := stoch hi lo c 14 3]>
  (<["BB_Lower" := bollinger_lband c 20 2]>
  (<["BB_Middle" := bollinger_mavg c 20 2]>
  (<["BB_Upper" := bollinger_hband c 20 2]>
  (<["RSI" := rsi c 14]>
  (<["MACD_Diff" := macd_diff c]>
  (<["MACD_Signal" := macd_signal c]>
  (<["MACD" := macd c]>
  (<["EMA_26" := ema_indicator c 26]>
  (<["EMA_12" := ema_indicator c 12]>
  (<["SMA_200" := sma_indicator c 200]>
  (<["SMA_50" := sma_indicator c 50]>
  (<["SMA_20" := sma_indicator c 20]> m))))))))))))).

(** The frame of a series with its indicator columns attached. *)
Definition augmented (s : list Bar) : DataFrame :=
  mkDF (length s)
       (indicator_columns (closes s) (highs s) (lows s) (volumes s)
                          (columns (frame_of_series s))).

(** The working copy of a series too short for the average true range: the
    columns up to the stochastic oscillator are in, the rest never are. *)
Definition unfinished (s : list Bar) : DataFrame :=
  mkDF (length s)
       (leading_columns (closes s) (highs s) (lows s)
                        (columns (frame_of_series s))).

(** The row of the latest bar, and the value of one of its columns. *)
Definition latest_row (s : list Bar) : Row :=
  row_at (length s - 1) (augmented s).

Definition latest (s : list Bar) (k : string) : float :=
  default nan (latest_row s !! k).

Definition trend_info_of (close sma_20 sma_50 sma_200 : float) : Dict :=
  let trend_info : Dict :=
    <["sma_200" := VNum sma_200]>
    (<["sma_50" := VNum sma_50]>
     (<["sma_20" := VNum sma_20]>
      (<["current_price" := VNum close]> ∅))) in
  let trend_info :=
    if (fgt close sma_20 && fgt sma_20 sma_50)%bool
    then <["short_term_trend" := VStr UPTREND]> trend_info
    else if (flt close sma_20 && flt sma_20 sma_50)%bool
    then <["short_term_trend" := VStr DOWNTREND]> trend_info
    else <["short_term_trend" := VStr SIDEWAYS]> trend_info in
  if fgt sma_50 sma_200
  then <["long_term_trend" := VStr GOLDEN_CROSS]> trend_info
  else if flt sma_50 sma_200
  then <["long_term_trend" := VStr DEATH_CROSS]> trend_info
  else <["long_term_trend" := VStr NEUTRAL_TREND]> trend_info.

Definition momentum_info_of (rsi_v macd_v macd_sig stoch_k stoch_d : float) : Dict :=
  let momentum_info : Dict :=
    <["stoch_d" := VNum stoch_d]>
    (<["stoch_k" := VNum stoch_k]>
     (<["macd_signal" := VNum macd_sig]>
      (<["macd" := VNum macd_v]>
       (<["rsi" := VNum rsi_v]> ∅)))) in
  let momentum_info :=
    if fgt rsi_v 70%float
    then <["rsi_signal" := VStr OVERBOUGHT]> momentum_info
    else if flt rsi_v 30%float
    then <["rsi_signal" := VStr OVERSOLD]> momentum_info
    else <["rsi_signal" := VStr NEUTRAL]> momentum_info in
  let momentum_info :=
    if fgt macd_v macd_sig
    then <["macd_signal" := VStr BULLISH]> momentum_info
    else <["macd_signal" := VStr BEARISH]> momentum_info in
  if fgt stoch_k 80%float
  then <["stoch_signal" := VStr OVERBOUGHT]> momentum_info
  else if flt stoch_k 20%float
  then <["stoch_signal" := VStr OVERSOLD]> momentum_info
  else <["stoch_signal" := VStr NEUTRAL]> momentum_info.

Definition volatility_info_of
    (hv close bb_upper bb_middle bb_lower atr : float) : Dict :=
  let volatility_info : Dict :=
    <["historical_volatility" := VNum hv]>
    (<["atr" := VNum atr]>
     (<["bb_lower" := VNum bb_lower]>
      (<["bb_middle" := VNum bb_middle]>
       (<["bb_upper" := VNum bb_upper]>
        (<["current_price" := VNum close]> ∅))))) in
  if fgt close bb_upper
  then <["bb_position" := VStr ABOVE_BAND]> volatility_info
  else if flt close bb_lower
  then <["bb_position" := VStr BELOW_BAND]> volatility_info
  else <["bb_position" := VStr WITHIN_BANDS]> volatility_info.

Definition historical_volatility_of (s : list Bar) : float :=
  PrimFloat.mul
    (PrimFloat.mul (std (dropna (pct_change (closes s)))) (np_sqrt 252%float))
    100%float.

Definition trend_of (s : list Bar) : Dict :=
  trend_info_of (latest s "Close") (latest s "SMA_20")
                (latest s "SMA_50") (latest s "SMA_200").

Definition momentum_of (s : list Bar) : Dict :=
  momentum_info_of (latest s "RSI") (latest s "MACD") (latest s "MACD_Signal")
                   (latest s "Stoch_K") (latest s "Stoch_D").

Definition volatility_of (s : list Bar) : Dict :=
  volatility_info_of (historical_volatility_of s) (latest s "Close")
                     (latest s "BB_Upper") (latest s "BB_Middle")
                     (latest s "BB_Lower") (latest s "ATR").

(** The vote counts [generate_signals] works with: its two analyses followed
    by its tally. *)
Definition tally : M (nat * nat) :=
  trend ← analyze_trend;
  momentum ← analyze_momentum;
  count_votes trend momentum.

End Denotation.

(** ** The classification and voting rules, as the specification words them *)

Inductive trend_class : Type := Uptrend | Downtrend | Sideways.
Inductive rsi_class : Type := Overbought | Oversold | RsiNeutral.
Inductive macd_class : Type := Bullish | Bearish.
Inductive band_class : Type := AboveBand | BelowBand | WithinBands.

(** close > SMA_20 > SMA_50: Uptrend; close < SMA_20 < SMA_50: Downtrend;
    else Sideways. *)
Definition short_term_class (close sma_20 sma_50 : float) : trend_class :=
  if (fgt close sma_20 && fgt sma_20 sma_50)%bool then Uptrend
  else if (flt close sma_20 && flt sma_20 sma_50)%bool then Downtrend
  else Sideways.

(** RSI > 70 Overbought, < 30 Oversold, else Neutral. *)
Definition rsi_class_of (r : float) : rsi_class :=
  if fgt r 70%float then Overbought
  else if flt r 30%float then Oversold
  else RsiNeutral.

(** MACD > MACD_Signal: Bullish, else Bearish. *)
Definition macd_class_of (m sg : float) : macd_class :=
  if fgt m sg then Bullish else Bearish.

(** close > BB_Upper: above; close < BB_Lower: below; else within. *)
Definition band_class_of (close bb_upper bb_lower : float) : band_class :=
  if fgt close bb_upper then AboveBand
  else if flt close bb_lower then BelowBand
  else WithinBands.

Definition trend_label (t : trend_class) : string :=
  match t with Uptrend => UPTREND | Downtrend => DOWNTREND | Sideways => SIDEWAYS end.

Definition rsi_label (r : rsi_class) : string :=
  match r with Overbought => OVERBOUGHT | Oversold => OVERSOLD | RsiNeutral => NEUTRAL end.

Definition macd_label (m : macd_class) : string :=
  match m with Bullish => BULLISH | Bearish => BEARISH end.

Definition band_label (b : band_class) : string :=
  match b with
  | AboveBand => ABOVE_BAND | BelowBand => BELOW_BAND | WithinBands => WITHIN_BANDS
  end.

(** Uptrend: +1 buy; Downtrend: +1 sell; Sideways: no vote. *)
Definition trend_vote (t : trend_class) : nat * nat :=
  match t with Uptrend => (1, 0) | Downtrend => (0, 1) | Sideways => (0, 0) end.

(** Oversold: +1 buy; Overbought: +1 sell; Neutral: no vote. *)
Definition rsi_vote (r : rsi_class) : nat * nat :=
  match r with Oversold => (1, 0) | Overbought => (0, 1) | RsiNeutral => (0, 0) end.

(** Bullish: +1 buy; Bearish: +1 sell. *)
Definition macd_vote (m : macd_class) : nat * nat :=
  match m with Bullish => (1, 0) | Bearish => (0, 1) end.

Definition buy_votes (t : trend_class) (r : rsi_class) (m : macd_class) : nat :=
  (trend_vote t).1 + (rsi_vote r).1 + (macd_vote m).1.

Definition sell_votes (t : trend_class) (r : rsi_class) (m : macd_class) : nat :=
  (trend_vote t).2 + (rsi_vote r).2 + (macd_vote m).2.

Section Classes.
Context `{TALib}.

Definition trend_class_at (s : list Bar) : trend_class :=
  short_term_class (latest s "Close") (latest s "SMA_20") (latest s "SMA_50").

Definition rsi_class_at (s : list Bar) : rsi_class :=
  rsi_class_of (latest s "RSI").

Definition macd_class_at (s : list Bar) : macd_class :=
  macd_class_of (latest s "MACD") (latest s "MACD_Signal").

Definition band_class_at (s : list Bar) : band_class :=
  band_class_of (latest s "Close") (latest s "BB_Upper") (latest s "BB_Lower").

Definition buy_votes_at (s : list Bar) : nat :=
  buy_votes (trend_class_at s) (rsi_class_at s) (macd_class_at s).

Definition sell_votes_at (s : list Bar) : nat :=
  sell_votes (trend_class_at s) (rsi_class_at s) (macd_class_at s).

(** The dictionary [generate_signals] builds from the labels and the counts. *)
Definition signals_dict (t : trend_class) (r : rsi_class) (m : macd_class)
    (b : band_class) (buy sell : nat) : Dict :=
  let sig : Dict :=
    <["volatility" := VStr (band_label b)]>
    (<["macd" := VStr (macd_label m)]>
     (<["momentum" := VStr (rsi_label r)]>
      (<["trend" := VStr (trend_label t)]> ∅))) in
  let sig :=
    if Nat.ltb sell buy then <["recommendation" := VStr BUY]> sig
    else if Nat.ltb buy sell then <["recommendation" := VStr SELL]> sig
    else <["recommendation" := VStr HOLD]> sig in
  <["confidence" := VStr (pretty (Nat.max buy sell) +:+ "/3")]> sig.

Definition signals_of (s : list Bar) : Dict :=
  signals_dict (trend_class_at s) (rsi_class_at s) (macd_class_at s)
               (band_class_at s) (buy_votes_at s) (sell_votes_at s).

Definition summary_of (s : list Bar) : Summary :=
  mkSummary (trend_of s) (momentum_of s) (volatility_of s) (signals_of s)
            (latest_row s).

(** The analyzer of a caller whose frame for the series [s] is the object at
    [l] of the store [h]. *)
Definition new_analyzer (h : gmap loc DataFrame) (l : loc) (s : list Bar) : State :=
  StockAnalyzer (<[l := frame_of_series s]> h) l.

(** The frame behind [self.data] holds the series: bare, or with its
    indicators, which only a series of at least 14 bars ever gets. *)
Definition tracks (s : list Bar) (st : State) : Prop :=
  heap st !! data st = Some (frame_of_series s)
  \/ (heap st !! data st = Some (augmented s) /\ 14 <= length s).

End Classes.

(** ** Engine operations, for statements about sequences of calls *)

Inductive op : Type :=
  | OpAddTechnicalIndicators
  | OpAnalyzeTrend
  | OpAnalyzeMomentum
  | OpAnalyzeVolatility
  | OpGenerateSignals
  | OpGetSummary.

Section Ops.
Context `{TALib}.

(** The state an operation leaves behind, whether it returned or raised. *)
Definition run_op (o : op) (st : State) : State :=
  match o with
  | OpAddTechnicalIndicators => (add_technical_indicators st).2
  | OpAnalyzeTrend => (analyze_trend st).2
  | OpAnalyzeMomentum => (analyze_momentum st).2
  | OpAnalyzeVolatility => (analyze_volatility st).2
  | OpGenerateSignals => (generate_signals st).2
  | OpGetSummary => (get_summary st).2
  end.

Definition run_ops (os : list op) (st : State) : State :=
  foldl (fun st o => run_op o st) st os.

End Ops.

(** ** Outcomes of the methods on a series *)

Section Results.
Context `{TALib}.

(** Every method computes the indicators first, on an analyzer whose frame
    lacks them: a series of fewer than 14 bars stops there with the
    [IndexError] of the average true range.  From 14 bars on the positions
    [iloc[-1]] and [iloc[-2]] exist. *)
Definition trend_result (s : list Bar) : Res Dict :=
  if Nat.leb 14 (length s) then Ok (trend_of s) else Raise IndexError.

Definition momentum_result (s : list Bar) : Res Dict :=
  if Nat.leb 14 (length s) then Ok (momentum_of s) else Raise IndexError.

Definition volatility_result (s : list Bar) : Res Dict :=
  if Nat.leb 14 (length s) then Ok (volatility_of s) else Raise IndexError.

Definition tally_result (s : list Bar) : Res (nat * nat) :=
  if Nat.leb 14 (length s) then Ok (buy_votes_at s, sell_votes_at s)
  else Raise IndexError.

Definition signals_result (s : list Bar) : Res Dict :=
  if Nat.leb 14 (length s) then Ok (signals_of s) else Raise IndexError.

Definition summary_result (s : list Bar) : Res Summary :=
  if Nat.leb 14 (length s) then Ok (summary_of s) else Raise IndexError.

(** The state once the indicator columns have been attached to a copy. *)
Definition attached (s : list Bar) (st : State) : State :=
  let l := fresh (dom (heap st)) in
  mkState (<[l := augmented s]> (heap st)) l (signals st).

(** The state when the average true range raised: the working copy stays
    behind in the store, [self.data] is not reassigned. *)
Definition stalled (s : list Bar) (st : State) : State :=
  let l := fresh (dom (heap st)) in
  mkState (<[l := unfinished s]> (heap st)) (data st) (signals st).

(** The state [add_technical_indicators] leaves. *)
Definition indicated (s : list Bar) (st : State) : State :=
  if Nat.leb 14 (length s) then attached s st else stalled s st.

(** [self.signals] after [generate_signals]: unchanged when it raised. *)
Definition with_signals (s : list Bar) (st : State) : State :=
  if Nat.leb 14 (length s)
  then mkState (heap st) (data st) (signals_of s)
  else st.

End Results.

Section Settled.
Context `{TALib}.

(** The state after a method has made sure the indicator columns exist:
    untouched when the frame already has them. *)
Definition settled (s : list Bar) (st : State) : State :=
  if bool_decide (is_Some (columns (heap st !!! data st) !! "SMA_20"))
  then st
  else indicated s st.

End Settled.

(** Modelled from the spec: the [ta], pandas and numpy routines behind [TALib]
    are external packages, absent from the repository.  This reference
    library follows the indicator formulas of the specification (section 4.2)
    in binary64 arithmetic; positions before an indicator's warm-up length
    hold [nan].  It serves to run the analyzer on concrete series. *)

Module SpecTA.

Local Open Scope float_scope.

Definition fnat (n : nat) : float :=
  PrimFloat.of_uint63 (Uint63.of_Z (Z.of_nat n)).

Definition fsum (l : list float) : float := foldl PrimFloat.add 0 l.

Definition fmean (l : list float) : float := fsum l / fnat (length l).

Definition fmax (a b : float) : float := if a <? b then b else a.
Definition fmin (a b : float) : float := if b <? a then b else a.

Definition fmaximum (l : list float) : float :=
  match l with [] => nan | x :: r => foldl fmax x r end.

Definition fminimum (l : list float) : float :=
  match l with [] => nan | x :: r => foldl fmin x r end.

Definition undefined (c : list float) : list float := (fun _ => nan) <$> c.

(** The trailing [n] values ending at position [i]. *)
Definition window (n i : nat) (c : list float) : list float :=
  take n (drop (S i - n) c).

(** A windowed statistic: undefined for the first [n-1] positions. *)
Definition rolling (f : list float -> float) (n : nat) (c : list float) : list float :=
  imap (fun i _ => if Nat.ltb i (n - 1) then nan else f (window n i c)) c.

(** SMA(n): arithmetic mean of the trailing [n] closes. *)
Definition sma (c : list float) (n : nat) : list float := rolling fmean n c.

Fixpoint ema_from (alpha prev : float) (rest : list float) : list float :=
  match rest with
  | [] => []
  | x :: r =>
      let e := alpha * x + (1 - alpha) * prev in
      e :: ema_from alpha e r
  end.

(** EMA(n): seeded with SMA(n) at the first fully-windowed position,
    then [EMA[t] = a * close[t] + (1 - a) * EMA[t-1]] with [a = 2/(n+1)]. *)
Definition ema (c : list float) (n : nat) : list float :=
  if Nat.ltb (length c) n then undefined c
  else
    let seed := fmean (take n c) in
    replicate (n - 1) nan ++ seed :: ema_from (2 / (fnat n + 1)) seed (drop n c).

(** An EMA over a series whose first [k] positions are undefined. *)
Definition ema_after (k : nat) (c : list float) (n : nat) : list float :=
  take (length c) (replicate k nan ++ ema (drop k c) n).

Definition macd_line (c : list float) : list float :=
  zip_with PrimFloat.sub (ema c 12) (ema c 26).

Definition macd_signal_line (c : list float) : list float :=
  ema_after 25 (macd_line c) 9.

Definition macd_hist (c : list float) : list float :=
  zip_with PrimFloat.sub (macd_line c) (macd_signal_line c).

Fixpoint wilder_from (n prev : float) (rest : list float) : list float :=
  match rest with
  | [] => []
  | x :: r =>
      let a := (prev * (n - 1) + x) / n in
      a :: wilder_from n a r
  end.

(** Wilder's smoothing: [avg[t] = (avg[t-1] * (n-1) + value[t]) / n],
    seeded with the mean of the first [n] values. *)
Definition wilder (v : list float) (n : nat) : list float :=
  if Nat.ltb (length v) n then undefined v
  else
    let seed := fmean (take n v) in
    replicate (n - 1) nan ++ seed :: wilder_from (fnat n) seed (drop n v).

(** Day-over-day differences, from the second bar on. *)
Definition deltas (c : list float) : list float :=
  zip_with (fun prev cur => cur - prev) c (tail c).

Definition rsi_value (gain loss : float) : float :=
  if (isna gain || isna loss)%bool then nan
  else if loss =? 0 then (if 0 <? gain then 100 else 50)
  else 100 - 100 / (1 + gain / loss).

Definition rsi_line (c : list float) (n : nat) : list float :=
  let d := deltas c in
  let gains := (fun x => if 0 <? x then x else 0) <$> d in
  let losses := (fun x => if x <? 0 then - x else 0) <$> d in
  match c with
  | [] => []
  | _ :: _ => nan :: zip_with rsi_value (wilder gains n) (wilder losses n)
  end.

Definition pstd (w : list float) : float :=
  let m := fmean w in
  PrimFloat.sqrt (fsum ((fun x => (x - m) * (x - m)) <$> w) / fnat (length w)).

Definition bb_mavg (c : list float) (n k : nat) : list float := sma c n.

Definition bb_hband (c : list float) (n k : nat) : list float :=
  zip_with PrimFloat.add (sma c n) ((fun x => fnat k * x) <$> rolling pstd n c).

Definition bb_lband (c : list float) (n k : nat) : list float :=
  zip_with PrimFloat.sub (sma c n) ((fun x => fnat k * x) <$> rolling pstd n c).

(** %K: position of the close within the trailing high/low range; 50 when
    the range is flat. *)
Definition stoch_k (hi lo c : list float) (n smooth : nat) : list float :=
  imap (fun i x =>
          if Nat.ltb i (n - 1) then nan
          else
            let top := fmaximum (window n i hi) in
            let bottom := fminimum (window n i lo) in
            if top - bottom =? 0 then 50
            else 100 * (x - bottom) / (top - bottom)) c.

Definition stoch_d (hi lo c : list float) (n smooth : nat) : list float :=
  sma (stoch_k hi lo c n smooth) smooth.

(** True range: the first bar uses [high - low] only. *)
Definition true_range (hi lo c : list float) : list float :=
  zip_with (fun hl prev =>
              match prev with
              | None => hl.1 - hl.2
              | Some p =>
                  fmax (hl.1 - hl.2)
                       (fmax (PrimFloat.abs (hl.1 - p)) (PrimFloat.abs (hl.2 - p)))
              end)
           (zip hi lo) (None :: (Some <$> c)).

Definition atr (hi lo c : list float) (n : nat) : list float :=
  wilder (true_range hi lo c) n.

Fixpoint obv_from (total prev : float) (rest : list (float * float)) : list float :=
  match rest with
  | [] => []
  | (x, vol) :: r =>
      let t := if prev <? x then total + vol
               else if x <? prev then total - vol
               else total in
      t :: obv_from t x r
  end.

Definition obv (c v : list float) : list float :=
  match zip c v with
  | [] => []
  | (x, _) :: r => 0 :: obv_from 0 x r
  end.

(** Fractional day-over-day return [close[t]/close[t-1] - 1]; undefined at 0. *)
Definition pct (c : list float) : list float :=
  match c with
  | [] => []
  | _ :: _ => nan :: zip_with (fun prev cur => cur / prev - 1) c (tail c)
  end.

Definition delta (c : list float) : list float :=
  match c with
  | [] => []
  | _ :: _ => nan :: deltas c
  end.

(** Sample standard deviation (divisor [n - 1]); undefined below two values. *)
Definition sample_std (l : list float) : float :=
  if Nat.ltb (length l) 2 then nan
  else
    let m := fmean l in
    PrimFloat.sqrt (fsum ((fun x => (x - m) * (x - m)) <$> l) / fnat (length l - 1)).

(** Modelled from the spec: the external routines behind [TALib], each given
    by the formula of section 4.2 above. *)
Definition lib : TALib := {|
  sma_indicator := sma;
  ema_indicator := ema;
  macd := macd_line;
  macd_signal := macd_signal_line;
  macd_diff := macd_hist;
  rsi := rsi_line;
  bollinger_hband := bb_hband;
  bollinger_mavg := bb_mavg;
  bollinger_lband := bb_lband;
  stoch := stoch_k;
  stoch_signal := stoch_d;
  average_true_range := atr;
  on_balance_volume := obv;
  pct_change := pct;
  diff := delta;
  std := sample_std;
  np_sqrt := PrimFloat.sqrt
|}.

(** Sample series: bars whose four prices agree. *)
Definition bar_at (price : float) : Bar := mkBar price price price price 1000.

(** [n] bars at a constant price of 100. *)
Definition flat (n : nat) : list Bar := replicate n (bar_at 100).

(** [n] bars rising by 1 a day from 100. *)
Definition rising (n : nat) : list Bar :=
  (fun i => bar_at (fnat (100 + i))) <$> seq 0 n.

(** [n] bars falling by 1 a day from 400. *)
Definition falling (n : nat) : list Bar :=
  (fun i => bar_at (fnat (400 - i))) <$> seq 0 n.

End SpecTA.

(** ** The order of floats

    The position of a float that is not NaN in the IEEE order, as a triple
    compared lexicographically: sign class, then exponent, then mantissa
    (both negated below zero). *)
Definition order_key (f : spec_float) : Z * Z * Z :=
  match f with
  | S754_infinity true => (-2, 0, 0)%Z
  | S754_finite true m e => (-1, - e, - Z.pos m)%Z
  | S754_zero _ => (0, 0, 0)%Z
  | S754_nan => (0, 0, 0)%Z
  | S754_finite false m e => (1, e, Z.pos m)%Z
  | S754_infinity false => (2, 0, 0)%Z
  end.

Definition key_lt (a b : Z * Z * Z) : Prop :=
  (a.1.1 < b.1.1
   \/ (a.1.1 = b.1.1 /\ (a.1.2 < b.1.2 \/ (a.1.2 = b.1.2 /\ a.2 < b.2))))%Z.

(** ** Frames as callers see them *)

(** The names of the columns [add_technical_indicators] assigns. *)
Definition indicator_list : list string :=
  ["SMA_20"; "SMA_50"; "SMA_200"; "EMA_12"; "EMA_26"; "MACD"; "MACD_Signal";
   "MACD_Diff"; "RSI"; "BB_Upper"; "BB_Middle"; "BB_Lower"; "Stoch_K";
   "Stoch_D"; "ATR"; "OBV"; "Daily_Return"; "Price_Change"].

Definition indicator_names : gset string := list_to_set indicator_list.

(** [df.empty]: an axis of length zero. *)
Definition df_empty (fr : DataFrame) : bool :=
  (Nat.eqb (nrows fr) 0 || Nat.eqb (size (columns fr)) 0)%bool.

(** The columns [add_technical_indicators] reads, in the order it first
    reads them. *)
Definition required_columns : list string := ["Close"; "High"; "Low"; "Volume"].

(** * The data source (src/src/data_fetcher.py)

    [StockDataFetcher] wraps the market-data provider.  The provider is
    outside the repository: a call consults the outside world [W] and either
    returns a value or raises an exception with a message.  Standard output
    is the list of printed lines. *)

Module Fetcher.

Inductive Outcome (A : Type) : Type :=
  | Returned (a : A)
  | Failed (msg : string).
Arguments Returned {A} a.
Arguments Failed {A} msg.

(** The Python values the provider's info dictionary holds under the keys
    the fetcher reads. *)
Inductive PyVal : Type :=
  | PNone
  | PStr (s : string)
  | PInt (z : Z)
  | PFloat (x : float).

Record IO (W : Type) : Type := mkIO {
  world : W;
  stdout : list string
}.
Arguments mkIO {W} world stdout.
Arguments world {W} i.
Arguments stdout {W} i.

Definition print {W} (line : string) (io : IO W) : IO W :=
  mkIO (world io) (stdout io ++ [line]).

Section Provider.
Context {W : Type}.

(** [yf.Ticker(ticker).history(period=period)] *)
Variable history : string -> string -> W -> Outcome DataFrame * W.

(** [yf.Ticker(ticker).info] *)
Variable info_of : string -> W -> Outcome (gmap string PyVal) * W.

Definition get_stock_data (ticker period : string) (io : IO W)
    : option DataFrame * IO W :=
  match history ticker period (world io) with
  | (Returned df, w) =>
      if df_empty df
      then (None, print ("⚠️  Данные для " +:+ ticker +:+ " не найдены")
                        (mkIO w (stdout io)))
      else (Some df, mkIO w (stdout io))
  | (Failed e, w) =>
      (None, print ("❌ Ошибка при получении данных для " +:+ ticker +:+ ": " +:+ e)
                   (mkIO w (stdout io)))
  end.

(** [info.get(k, d)] *)
Definition dict_get_default (d : gmap string PyVal) (k : string) (dflt : PyVal) : PyVal :=
  default dflt (d !! k).

Definition key_metrics (ticker : string) (info : gmap string PyVal)
    : gmap string PyVal :=
  <["recommendation" := dict_get_default info "recommendationKey" (PStr "N/A")]>
  (<["target_price" := dict_get_default info "targetMeanPrice" PNone]>
  (<["current_price" := dict_get_default info "currentPrice" PNone]>
  (<["52_week_low" := dict_get_default info "fiftyTwoWeekLow" PNone]>
  (<["52_week_high" := dict_get_default info "fiftyTwoWeekHigh" PNone]>
  (<["beta" := dict_get_default info "beta" PNone]>
  (<["dividend_yield" := dict_get_default info "dividendYield" PNone]>
  (<["forward_pe" := dict_get_default info "forwardPE" PNone]>
  (<["pe_ratio" := dict_get_default info "trailingPE" PNone]>
  (<["market_cap" := dict_get_default info "marketCap" (PInt 0)]>
  (<["industry" := dict_get_default info "industry" (PStr "N/A")]>
  (<["sector" := dict_get_default info "sector" (PStr "N/A")]>
  (<["name" := dict_get_default info "longName" (PStr "N/A")]>
  (<["symbol" := dict_get_default info "symbol" (PStr ticker)]> ∅))))))))))))).

Definition get_stock_info (ticker : string) (io : IO W)
    : option (gmap string PyVal) * IO W :=
  match info_of ticker (world io) with
  | (Returned info, w) => (Some (key_metrics ticker info), mkIO w (stdout io))
  | (Failed e, w) =>
      (None, print ("❌ Ошибка при получении информации для " +:+ ticker +:+ ": " +:+ e)
                   (mkIO w (stdout io)))
  end.

Definition get_multiple_stocks (tickers : list string) (period : string) (io : IO W)
    : gmap string DataFrame * IO W :=
  foldl (fun acc ticker =>
           match get_stock_data ticker period acc.2 with
           | (Some data, io') => (<[ticker := data]> acc.1, io')
           | (None, io') => (acc.1, io')
           end)
        (∅, io) tickers.

End Provider.

(** A provider for examples: one ticker with three bars, one with no rows;
    anything else fails. *)
Definition sample_history (ticker period : string) (w : unit)
    : Outcome DataFrame * unit :=
  if String.eqb ticker "AAPL" then (Returned (frame_of_series (SpecTA.rising 3)), w)
  else if String.eqb ticker "NODATA" then (Returned (frame_of_series []), w)
  else (Failed "not found", w).

End Fetcher.

(** * Tickers from a worksheet (src/src/sheets_integration.py)

    [read_sheet] talks to the spreadsheet service; what it returns is the
    argument of [get_tickers_from_sheet] below: [None], or a table of
    columns.  A cell is a text, or missing.  Texts are ASCII: [strip] and
    [upper] are Python's [str.strip()] and [str.upper()] on ASCII text. *)

Module Sheets.

(** [str.isspace] on an ASCII character: tab to carriage return, the four
    separators 28-31, and the space. *)
Definition is_space (a : Ascii.ascii) : bool :=
  let n := Ascii.nat_of_ascii a in
  ((Nat.leb 9 n && Nat.leb n 13) || (Nat.leb 28 n && Nat.leb n 32))%bool.

Fixpoint lstrip (s : string) : string :=
  match s with
  | EmptyString => EmptyString
  | String a r => if is_space a then lstrip r else s
  end.

Fixpoint rstrip (s : string) : string :=
  match s with
  | EmptyString => EmptyString
  | String a r =>
      match rstrip r with
      | EmptyString => if is_space a then EmptyString else String a EmptyString
      | r' => String a r'
      end
  end.

Definition strip (s : string) : string := rstrip (lstrip s).

Definition upper_ascii (a : Ascii.ascii) : Ascii.ascii :=
  let n := Ascii.nat_of_ascii a in
  if (Nat.leb 97 n && Nat.leb n 122)%bool then Ascii.ascii_of_nat (n - 32) else a.

Fixpoint upper (s : string) : string :=
  match s with
  | EmptyString => EmptyString
  | String a r => String (upper_ascii a) (upper r)
  end.

(** [Series.dropna()] on cells. *)
Definition dropna_cells (col : list (option string)) : list string :=
  omap id col.

(** [Series.unique()]: the distinct values in order of first appearance. *)
Fixpoint unique (l : list string) : list string :=
  match l with
  | [] => []
  | x :: r => x :: filter (fun y => y <> x) (unique r)
  end.

Definition get_tickers_from_sheet
    (df : option (gmap string (list (option string)))) (ticker_column : string)
    : list string :=
  match df with
  | Some df =>
      match df !! ticker_column with
      | Some col =>
          let tickers := unique (dropna_cells col) in
          (fun t => upper (strip t))
            <$> filter (fun t => strip t <> EmptyString) tickers
      | None => []
      end
  | None => []
  end.

(** A text with no leading white space. *)
Definition trimmed_left (s : string) : Prop :=
  match s with
  | EmptyString => True
  | String a _ => is_space a = false
  end.

End Sheets.

(** * Running the methods

    Each method, run in a state whose [self.data] holds a series (bare or
    with its indicator columns), yields the outcome defined above and a
    state that only adds objects to the store. *)

Section Runs.
Context `{TALib}.

Lemma bind_run {A B} (m : M A) (f : A -> M B) st a st' :
  m st = (Ok a, st') -> (m ≫= f) st = f a st'.
Proof. intros E. unfold mbind, M_bind, bind. by rewrite E. Qed.

Lemma bind_raise {A B} (m : M A) (f : A -> M B) st e st' :
  m st = (Raise e, st') -> (m ≫= f) st = (Raise e, st').
Proof. intros E. unfold mbind, M_bind, bind. by rewrite E. Qed.

Lemma getcol_run h l d sg k fr c :
  h !! l = Some fr -> columns fr !! k = Some c ->
  getcol l k (mkState h d sg) = (Ok c, mkState h d sg).
Proof.
  intros Hl Hk. unfold getcol, deref, mbind, M_bind, bind; cbn [heap].
  rewrite (lookup_total_correct _ _ _ Hl), Hk. done.
Qed.

Lemma setcol_run h l d sg k col n cols :
  setcol l k col (mkState (<[l := mkDF n cols]> h) d sg)
  = (Ok tt, mkState (<[l := mkDF n (<[k := col]> cols)]> h) d sg).
Proof.
  unfold setcol; cbn [heap data signals].
  rewrite lookup_total_insert_eq, insert_insert_eq. done.
Qed.

Ltac col_lookup :=
  cbn [columns nrows]; repeat (rewrite lookup_insert_ne by discriminate);
  first [ eassumption | apply lookup_insert_eq ].

Ltac mstep :=
  first
    [ erewrite bind_run by (eapply getcol_run; [apply lookup_insert_eq | col_lookup])
    | erewrite bind_run by (apply setcol_run) ].

Lemma AverageTrueRange_run hi lo c w st :
  w <= length c ->
  AverageTrueRange hi lo c w st = (Ok (average_true_range hi lo c w), st).
Proof.
  intros Hw. unfold AverageTrueRange. by rewrite (proj2 (Nat.ltb_ge _ _) Hw).
Qed.

Lemma AverageTrueRange_raise hi lo c w st :
  length c < w -> AverageTrueRange hi lo c w st = (Raise IndexError, st).
Proof.
  intros Hw. unfold AverageTrueRange. by rewrite (proj2 (Nat.ltb_lt _ _) Hw).
Qed.

Lemma copy_run h d sg fr :
  h !! d = Some fr ->
  copy d (mkState h d sg) = (Ok (fresh (dom h)), mkState (<[fresh (dom h) := fr]> h) d sg).
Proof.
  intros Hd. unfold copy, deref, alloc, mbind, M_bind, bind; cbn [heap data signals].
  by rewrite (lookup_total_correct _ _ _ Hd).
Qed.

Lemma add_technical_indicators_run st fr c hi lo v :
  heap st !! data st = Some fr ->
  columns fr !! "Close" = Some c ->
  columns fr !! "High" = Some hi ->
  columns fr !! "Low" = Some lo ->
  columns fr !! "Volume" = Some v ->
  14 <= length c ->
  add_technical_indicators st
  = (Ok (fresh (dom (heap st))),
     mkState (<[fresh (dom (heap st)) :=
                 mkDF (nrows fr) (indicator_columns c hi lo v (columns fr))]> (heap st))
             (fresh (dom (heap st))) (signals st)).
Proof.
  intros Hd Hc Hh Hl Hv Hlen. destruct st as [h d sg]; cbn [heap data signals] in *.
  unfold add_technical_indicators.
  erewrite bind_run by reflexivity.
  erewrite bind_run by (apply copy_run, Hd).
  set (l' := fresh (dom h)).
  destruct fr as [n cols]; cbn [columns nrows] in *.
  repeat mstep.
  erewrite bind_run by (apply AverageTrueRange_run, Hlen).
  repeat mstep.
  reflexivity.
Qed.

(** Below 14 rows the call stops at the average true range: the working copy
    holds the columns assigned so far and [self.data] is the frame it was. *)
Lemma add_technical_indicators_stall st fr c hi lo :
  heap st !! data st = Some fr ->
  columns fr !! "Close" = Some c ->
  columns fr !! "High" = Some hi ->
  columns fr !! "Low" = Some lo ->
  length c < 14 ->
  add_technical_indicators st
  = (Raise IndexError,
     mkState (<[fresh (dom (heap st)) :=
                 mkDF (nrows fr) (leading_columns c hi lo (columns fr))]> (heap st))
             (data st) (signals st)).
Proof.
  intros Hd Hc Hh Hl Hlen. destruct st as [h d sg]; cbn [heap data signals] in *.
  unfold add_technical_indicators.
  erewrite bind_run by reflexivity.
  erewrite bind_run by (apply copy_run, Hd).
  set (l' := fresh (dom h)).
  destruct fr as [n cols]; cbn [columns nrows] in *.
  repeat mstep.
  erewrite bind_raise by (apply AverageTrueRange_raise, Hlen).
  reflexivity.
Qed.

Lemma indicator_columns_idem c hi lo v m :
  indicator_columns c hi lo v (indicator_columns c hi lo v m)
  = indicator_columns c hi lo v m.
Proof.
  apply map_eq; intros k. unfold indicator_columns.
  repeat match goal with
  | |- <[?key := _]> _ !! k = <[?key := _]> _ !! k =>
      destruct (decide (key = k)) as [<-|];
      [ by rewrite !lookup_insert_eq
      | rewrite (lookup_insert_ne _ key k) by done;
        symmetry; rewrite (lookup_insert_ne _ key k) by done; symmetry ]
  end.
  repeat (rewrite lookup_insert_ne by done). done.
Qed.

Lemma frame_columns s :
  columns (frame_of_series s) !! "Close" = Some (closes s)
  /\ columns (frame_of_series s) !! "High" = Some (highs s)
  /\ columns (frame_of_series s) !! "Low" = Some (lows s)
  /\ columns (frame_of_series s) !! "Volume" = Some (volumes s).
Proof. unfold frame_of_series. repeat split; col_lookup. Qed.

Lemma augmented_columns s :
  columns (augmented s) !! "Close" = Some (closes s)
  /\ columns (augmented s) !! "High" = Some (highs s)
  /\ columns (augmented s) !! "Low" = Some (lows s)
  /\ columns (augmented s) !! "Volume" = Some (volumes s).
Proof.
  unfold augmented, indicator_columns, frame_of_series. repeat split; col_lookup.
Qed.

Lemma closes_length s : length (closes s) = length s.
Proof. apply length_fmap. Qed.

Lemma indicated_long s st : 14 <= length s -> indicated s st = attached s st.
Proof. intros Hlen. unfold indicated. by rewrite (proj2 (Nat.leb_le _ _) Hlen). Qed.

Lemma indicated_short s st : length s < 14 -> indicated s st = stalled s st.
Proof. intros Hlen. unfold indicated. by rewrite (proj2 (Nat.leb_gt _ _) Hlen). Qed.

Lemma add_technical_indicators_tracks s st :
  tracks s st ->
  add_technical_indicators st
  = (if Nat.leb 14 (length s) then Ok (fresh (dom (heap st))) else Raise IndexError,
     indicated s st).
Proof.
  intros [Hd|[Hd Hlen]].
  - destruct (frame_columns s) as (Hc & Hh & Hl & Hv).
    destruct (Nat.leb_spec 14 (length s)) as [Hlen|Hlen].
    + rewrite (indicated_long _ _ Hlen).
      rewrite (add_technical_indicators_run _ _ _ _ _ _ Hd Hc Hh Hl Hv)
        by (by rewrite closes_length).
      done.
    + rewrite (indicated_short _ _ Hlen).
      rewrite (add_technical_indicators_stall _ _ _ _ _ Hd Hc Hh Hl)
        by (by rewrite closes_length).
      done.
  - destruct (augmented_columns s) as (Hc & Hh & Hl & Hv).
    rewrite (indicated_long _ _ Hlen), (proj2 (Nat.leb_le _ _) Hlen).
    rewrite (add_technical_indicators_run _ _ _ _ _ _ Hd Hc Hh Hl Hv)
      by (by rewrite closes_length).
    unfold attached, augmented at 2. cbn [nrows columns].
    unfold augmented at 1. cbn [nrows columns].
    by rewrite indicator_columns_idem.
Qed.

Lemma has_column_run st fr k :
  heap st !! data st = Some fr ->
  has_column (data st) k st = (Ok (bool_decide (is_Some (columns fr !! k))), st).
Proof.
  intros Hd. unfold has_column, deref, mbind, M_bind, bind.
  by rewrite (lookup_total_correct _ _ _ Hd).
Qed.

Lemma ensure_indicators_raw s st k :
  heap st !! data st = Some (frame_of_series s) ->
  columns (frame_of_series s) !! k = None ->
  ensure_indicators k st
  = (if Nat.leb 14 (length s) then Ok tt else Raise IndexError, indicated s st).
Proof.
  intros Hd Hk. unfold ensure_indicators.
  erewrite bind_run by reflexivity.
  erewrite bind_run by (apply has_column_run, Hd).
  rewrite Hk, bool_decide_eq_false_2 by (intros [? ?]; discriminate).
  cbn [negb].
  pose proof (add_technical_indicators_tracks s st (or_introl Hd)) as E.
  destruct (Nat.leb 14 (length s)).
  - by erewrite bind_run by exact E.
  - by erewrite bind_raise by exact E.
Qed.

Lemma ensure_indicators_aug s st k col :
  heap st !! data st = Some (augmented s) ->
  columns (augmented s) !! k = Some col ->
  ensure_indicators k st = (Ok tt, st).
Proof.
  intros Hd Hk. unfold ensure_indicators.
  erewrite bind_run by reflexivity.
  erewrite bind_run by (apply has_column_run, Hd).
  rewrite Hk, bool_decide_eq_true_2 by eauto.
  done.
Qed.

Lemma attached_data s st : heap (attached s st) !! data (attached s st) = Some (augmented s).
Proof. unfold attached; cbn [heap data]. apply lookup_insert_eq. Qed.

(** A method that starts by ensuring an indicator column behaves on a bare
    frame of at least 14 rows as it does once the columns are attached; on a
    shorter one it stops with the error of the indicators. *)
Lemma ensure_bind_raw {A} (rest : M A) s st k col :
  heap st !! data st = Some (frame_of_series s) ->
  columns (frame_of_series s) !! k = None ->
  columns (augmented s) !! k = Some col ->
  14 <= length s ->
  (ensure_indicators k ;; rest) st = (ensure_indicators k ;; rest) (attached s st).
Proof.
  intros Hd Hn Hs Hlen.
  pose proof (ensure_indicators_raw _ _ _ Hd Hn) as E.
  rewrite (proj2 (Nat.leb_le _ _) Hlen), (indicated_long _ _ Hlen) in E.
  erewrite bind_run by exact E.
  erewrite (bind_run _ _ (attached s st))
    by (eapply ensure_indicators_aug; [apply attached_data | eassumption]).
  done.
Qed.

Lemma ensure_bind_short {A} (rest : M A) s st k :
  heap st !! data st = Some (frame_of_series s) ->
  columns (frame_of_series s) !! k = None ->
  length s < 14 ->
  (ensure_indicators k ;; rest) st = (Raise IndexError, stalled s st).
Proof.
  intros Hd Hn Hlen.
  pose proof (ensure_indicators_raw _ _ _ Hd Hn) as E.
  rewrite (proj2 (Nat.leb_gt _ _) Hlen), (indicated_short _ _ Hlen) in E.
  by erewrite bind_raise by exact E.
Qed.

Lemma iloc_last st fr :
  heap st !! data st = Some fr ->
  iloc (data st) (-1)%Z st
  = (if Nat.leb 1 (nrows fr) then Ok (row_at (nrows fr - 1) fr) else Raise IndexError, st).
Proof.
  intros Hd. unfold iloc, deref, mbind, M_bind, bind.
  rewrite (lookup_total_correct _ _ _ Hd).
  change (-1 <? 0)%Z with true. cbv iota.
  destruct (Nat.leb_spec 1 (nrows fr)).
  - rewrite andb_true_intro by (split; [apply Z.leb_le | apply Z.ltb_lt]; lia).
    replace (Z.to_nat (Z.of_nat (nrows fr) + -1)) with (nrows fr - 1) by lia. done.
  - replace (nrows fr) with 0 by lia. done.
Qed.

Lemma iloc_prev st fr :
  heap st !! data st = Some fr ->
  iloc (data st) (-2)%Z st
  = (if Nat.leb 2 (nrows fr) then Ok (row_at (nrows fr - 2) fr) else Raise IndexError, st).
Proof.
  intros Hd. unfold iloc, deref, mbind, M_bind, bind.
  rewrite (lookup_total_correct _ _ _ Hd).
  change (-2 <? 0)%Z with true. cbv iota.
  destruct (Nat.leb_spec 2 (nrows fr)).
  - rewrite andb_true_intro by (split; [apply Z.leb_le | apply Z.ltb_lt]; lia).
    replace (Z.to_nat (Z.of_nat (nrows fr) + -2)) with (nrows fr - 2) by lia. done.
  - rewrite (proj2 (andb_false_iff _ _)); [done|].
    left. apply Z.leb_gt. lia.
Qed.

Lemma getitem_run (r : Row) k x st :
  r !! k = Some x -> getitem r k st = (Ok x, st).
Proof. intros E. unfold getitem. by rewrite E. Qed.

Lemma latest_row_lookup s k col :
  columns (augmented s) !! k = Some col ->
  latest_row s !! k = Some (latest s k).
Proof.
  intros E. unfold latest, latest_row, row_at. by rewrite lookup_fmap, E.
Qed.

Ltac aug_col :=
  unfold augmented, indicator_columns, frame_of_series; col_lookup.

Ltac raw_none :=
  unfold frame_of_series; cbn [columns];
  repeat (rewrite lookup_insert_ne by discriminate); apply lookup_empty.

Ltac item_step :=
  erewrite bind_run by (eapply getitem_run, latest_row_lookup; aug_col).

Lemma analyze_trend_aug s st :
  heap st !! data st = Some (augmented s) ->
  2 <= length s ->
  analyze_trend st = (Ok (trend_of s), st).
Proof.
  intros Hd Hlen. unfold analyze_trend.
  erewrite bind_run by (eapply ensure_indicators_aug; [exact Hd | aug_col]).
  erewrite bind_run by reflexivity.
  pose proof (iloc_last _ _ Hd) as Hl. pose proof (iloc_prev _ _ Hd) as Hp.
  cbn [nrows augmented] in Hl, Hp.
  rewrite (proj2 (Nat.leb_le 1 _)) in Hl by lia.
  rewrite (proj2 (Nat.leb_le 2 _)) in Hp by lia.
  erewrite bind_run by exact Hl.
  erewrite bind_run by reflexivity.
  erewrite bind_run by exact Hp.
  fold (latest_row s).
  repeat item_step.
  reflexivity.
Qed.

Lemma analyze_momentum_aug s st :
  heap st !! data st = Some (augmented s) ->
  1 <= length s ->
  analyze_momentum st = (Ok (momentum_of s), st).
Proof.
  intros Hd Hlen. unfold analyze_momentum.
  erewrite bind_run by (eapply ensure_indicators_aug; [exact Hd | aug_col]).
  erewrite bind_run by reflexivity.
  pose proof (iloc_last _ _ Hd) as Hl. cbn [nrows augmented] in Hl.
  rewrite (proj2 (Nat.leb_le 1 _)) in Hl by lia.
  erewrite bind_run by exact Hl.
  fold (latest_row s).
  repeat item_step.
  reflexivity.
Qed.

Lemma analyze_volatility_aug s st :
  heap st !! data st = Some (augmented s) ->
  1 <= length s ->
  analyze_volatility st = (Ok (volatility_of s), st).
Proof.
  intros Hd Hlen. unfold analyze_volatility.
  erewrite bind_run by (eapply ensure_indicators_aug; [exact Hd | aug_col]).
  erewrite bind_run by reflexivity.
  pose proof (iloc_last _ _ Hd) as Hl. cbn [nrows augmented] in Hl.
  rewrite (proj2 (Nat.leb_le 1 _)) in Hl by lia.
  erewrite bind_run by exact Hl.
  fold (latest_row s).
  erewrite bind_run by reflexivity.
  destruct st as [h d sg]; cbn [heap data] in Hd.
  erewrite bind_run by (eapply getcol_run; [exact Hd | aug_col]).
  repeat item_step.
  reflexivity.
Qed.

Lemma dict_get_run (d : Dict) k v st :
  d !! k = Some v -> dict_get d k st = (Ok v, st).
Proof. intros E. unfold dict_get. by rewrite E. Qed.

Ltac dict_lookup :=
  repeat (rewrite lookup_insert_ne by discriminate); apply lookup_insert_eq.

Lemma trend_info_short c s20 s50 s200 :
  trend_info_of c s20 s50 s200 !! "short_term_trend"
  = Some (VStr (trend_label (short_term_class c s20 s50))).
Proof.
  unfold trend_info_of, short_term_class.
  destruct (fgt c s20 && fgt s20 s50)%bool, (flt c s20 && flt s20 s50)%bool,
    (fgt s50 s200), (flt s50 s200); dict_lookup.
Qed.

Lemma momentum_info_rsi r m sg k d :
  momentum_info_of r m sg k d !! "rsi_signal"
  = Some (VStr (rsi_label (rsi_class_of r))).
Proof.
  unfold momentum_info_of, rsi_class_of.
  destruct (fgt r 70), (flt r 30), (fgt m sg), (fgt k 80), (flt k 20); dict_lookup.
Qed.

Lemma momentum_info_macd r m sg k d :
  momentum_info_of r m sg k d !! "macd_signal"
  = Some (VStr (macd_label (macd_class_of m sg))).
Proof.
  unfold momentum_info_of, macd_class_of.
  destruct (fgt r 70), (flt r 30), (fgt m sg), (fgt k 80), (flt k 20); dict_lookup.
Qed.

Lemma volatility_info_bb hv c u m l a :
  volatility_info_of hv c u m l a !! "bb_position"
  = Some (VStr (band_label (band_class_of c u l))).
Proof.
  unfold volatility_info_of, band_class_of.
  destruct (fgt c u), (flt c l); dict_lookup.
Qed.

Lemma count_votes_run (trend momentum : Dict) t r m st :
  trend !! "short_term_trend" = Some (VStr (trend_label t)) ->
  momentum !! "rsi_signal" = Some (VStr (rsi_label r)) ->
  momentum !! "macd_signal" = Some (VStr (macd_label m)) ->
  count_votes trend momentum st = (Ok (buy_votes t r m, sell_votes t r m), st).
Proof.
  intros Ht Hr Hm. unfold count_votes, dict_get, mbind, M_bind, bind.
  rewrite Ht, Hr, Hm. destruct t, r, m; reflexivity.
Qed.

Lemma tally_aug s st :
  heap st !! data st = Some (augmented s) ->
  2 <= length s ->
  tally st = (Ok (buy_votes_at s, sell_votes_at s), st).
Proof.
  intros Hd Hlen. unfold tally.
  erewrite bind_run by (by apply analyze_trend_aug).
  erewrite bind_run by (apply analyze_momentum_aug; [done | lia]).
  apply count_votes_run.
  - apply trend_info_short.
  - apply momentum_info_rsi.
  - apply momentum_info_macd.
Qed.

Lemma generate_signals_aug s st :
  heap st !! data st = Some (augmented s) ->
  2 <= length s ->
  generate_signals st
  = (Ok (signals_of s), mkState (heap st) (data st) (signals_of s)).
Proof.
  intros Hd Hlen. unfold generate_signals.
  erewrite bind_run by (by apply analyze_trend_aug).
  erewrite bind_run by (apply analyze_momentum_aug; [done | lia]).
  erewrite bind_run by (apply analyze_volatility_aug; [done | lia]).
  erewrite bind_run by (apply dict_get_run, trend_info_short).
  erewrite bind_run by (apply dict_get_run, momentum_info_rsi).
  erewrite bind_run by (apply dict_get_run, momentum_info_macd).
  erewrite bind_run by (apply dict_get_run, volatility_info_bb).
  erewrite bind_run
    by (apply count_votes_run;
        [apply trend_info_short | apply momentum_info_rsi | apply momentum_info_macd]).
  reflexivity.
Qed.

Lemma bind_same {A B} (m : M A) (f : A -> M B) st1 st2 r st' :
  m st1 = (r, st') -> m st2 = (r, st') -> (m ≫= f) st1 = (m ≫= f) st2.
Proof. intros E1 E2. unfold mbind, M_bind, bind. by rewrite E1, E2. Qed.

Lemma settled_raw s st :
  heap st !! data st = Some (frame_of_series s) -> settled s st = indicated s st.
Proof.
  intros Hd. unfold settled. rewrite (lookup_total_correct _ _ _ Hd).
  rewrite bool_decide_eq_false_2; [done|].
  intros [x Hx]. assert (columns (frame_of_series s) !! "SMA_20" = None) as Hn by raw_none.
  congruence.
Qed.

Lemma settled_aug s st :
  heap st !! data st = Some (augmented s) -> settled s st = st.
Proof.
  intros Hd. unfold settled. rewrite (lookup_total_correct _ _ _ Hd).
  rewrite bool_decide_eq_true_2; [done|].
  eexists. aug_col.
Qed.

Lemma settled_data s st :
  tracks s st -> 14 <= length s ->
  heap (settled s st) !! data (settled s st) = Some (augmented s).
Proof.
  intros [Hd|[Hd _]] Hlen.
  - rewrite (settled_raw _ _ Hd), (indicated_long _ _ Hlen). apply attached_data.
  - by rewrite (settled_aug _ _ Hd).
Qed.

(** A series of fewer than 14 bars never has its indicators. *)
Lemma tracks_short s st :
  tracks s st -> length s < 14 -> heap st !! data st = Some (frame_of_series s).
Proof. intros [Hd|[_ Hlen]] Hs; [done | lia]. Qed.

Lemma analyze_trend_tracks s st :
  tracks s st -> analyze_trend st = (trend_result s, settled s st).
Proof.
  intros Ht. unfold trend_result.
  destruct (Nat.leb_spec 14 (length s)) as [Hlen|Hlen].
  - destruct Ht as [Hd|[Hd _]].
    + rewrite (settled_raw _ _ Hd), (indicated_long _ _ Hlen). unfold analyze_trend.
      erewrite ensure_bind_raw by (first [exact Hd | raw_none | aug_col | exact Hlen]).
      apply (analyze_trend_aug s); [apply attached_data | lia].
    + rewrite (settled_aug _ _ Hd). apply analyze_trend_aug; [done | lia].
  - pose proof (tracks_short _ _ Ht Hlen) as Hd.
    rewrite (settled_raw _ _ Hd), (indicated_short _ _ Hlen). unfold analyze_trend.
    apply ensure_bind_short; [exact Hd | raw_none | exact Hlen].
Qed.

Lemma analyze_momentum_tracks s st :
  tracks s st -> analyze_momentum st = (momentum_result s, settled s st).
Proof.
  intros Ht. unfold momentum_result.
  destruct (Nat.leb_spec 14 (length s)) as [Hlen|Hlen].
  - destruct Ht as [Hd|[Hd _]].
    + rewrite (settled_raw _ _ Hd), (indicated_long _ _ Hlen). unfold analyze_momentum.
      erewrite ensure_bind_raw by (first [exact Hd | raw_none | aug_col | exact Hlen]).
      apply (analyze_momentum_aug s); [apply attached_data | lia].
    + rewrite (settled_aug _ _ Hd). apply analyze_momentum_aug; [done | lia].
  - pose proof (tracks_short _ _ Ht Hlen) as Hd.
    rewrite (settled_raw _ _ Hd), (indicated_short _ _ Hlen). unfold analyze_momentum.
    apply ensure_bind_short; [exact Hd | raw_none | exact Hlen].
Qed.

Lemma analyze_volatility_tracks s st :
  tracks s st -> analyze_volatility st = (volatility_result s, settled s st).
Proof.
  intros Ht. unfold volatility_result.
  destruct (Nat.leb_spec 14 (length s)) as [Hlen|Hlen].
  - destruct Ht as [Hd|[Hd _]].
    + rewrite (settled_raw _ _ Hd), (indicated_long _ _ Hlen). unfold analyze_volatility.
      erewrite ensure_bind_raw by (first [exact Hd | raw_none | aug_col | exact Hlen]).
      apply (analyze_volatility_aug s); [apply attached_data | lia].
    + rewrite (settled_aug _ _ Hd). apply analyze_volatility_aug; [done | lia].
  - pose proof (tracks_short _ _ Ht Hlen) as Hd.
    rewrite (settled_raw _ _ Hd), (indicated_short _ _ Hlen). unfold analyze_volatility.
    apply ensure_bind_short; [exact Hd | raw_none | exact Hlen].
Qed.

Lemma tally_tracks s st :
  tracks s st -> tally st = (tally_result s, settled s st).
Proof.
  intros Ht. pose proof (analyze_trend_tracks _ _ Ht) as Etr.
  unfold tally_result. unfold trend_result in Etr.
  destruct (Nat.leb_spec 14 (length s)) as [Hlen|Hlen].
  - pose proof (settled_data _ _ Ht Hlen) as Hs.
    rewrite <- (tally_aug _ _ Hs) by lia. unfold tally.
    eapply bind_same; [exact Etr|].
    apply analyze_trend_aug; [done | lia].
  - unfold tally. by erewrite bind_raise by exact Etr.
Qed.

Lemma generate_signals_tracks s st :
  tracks s st ->
  generate_signals st = (signals_result s, with_signals s (settled s st)).
Proof.
  intros Ht. pose proof (analyze_trend_tracks _ _ Ht) as Etr.
  unfold signals_result, with_signals. unfold trend_result in Etr.
  destruct (Nat.leb_spec 14 (length s)) as [Hlen|Hlen].
  - pose proof (settled_data _ _ Ht Hlen) as Hs.
    rewrite <- (generate_signals_aug _ _ Hs) by lia. unfold generate_signals.
    eapply bind_same; [exact Etr|].
    apply analyze_trend_aug; [done | lia].
  - unfold generate_signals. by erewrite bind_raise by exact Etr.
Qed.

Lemma with_signals_data s st :
  heap (with_signals s st) = heap st /\ data (with_signals s st) = data st.
Proof. unfold with_signals. by destruct (Nat.leb 14 (length s)). Qed.

Lemma get_summary_tracks s st :
  tracks s st ->
  get_summary st = (summary_result s, with_signals s (indicated s st)).
Proof.
  intros Ht. unfold get_summary, summary_result.
  pose proof (add_technical_indicators_tracks _ _ Ht) as Eadd.
  unfold with_signals.
  destruct (Nat.leb_spec 14 (length s)) as [Hlen|Hlen].
  - rewrite (indicated_long _ _ Hlen) in *.
    erewrite bind_run by exact Eadd.
    pose proof (attached_data s st) as Hd.
    erewrite bind_run by (apply analyze_trend_aug; [exact Hd | lia]).
    erewrite bind_run by (apply analyze_momentum_aug; [exact Hd | lia]).
    erewrite bind_run by (apply analyze_volatility_aug; [exact Hd | lia]).
    erewrite bind_run by (apply generate_signals_aug; [exact Hd | lia]).
    erewrite bind_run by reflexivity.
    cbn [data heap].
    set (st' := mkState _ _ _).
    assert (heap st' !! data st' = Some (augmented s)) as Hd' by exact Hd.
    pose proof (iloc_last _ _ Hd') as Hl. cbn [nrows augmented] in Hl.
    rewrite (proj2 (Nat.leb_le 1 _)) in Hl by lia.
    erewrite bind_run by exact Hl.
    reflexivity.
  - by erewrite bind_raise by exact Eadd.
Qed.

(** *** The store only grows *)

Lemma attached_heap s st : heap st ⊆ heap (attached s st).
Proof.
  unfold attached; cbn [heap]. apply insert_subseteq.
  apply not_elem_of_dom, is_fresh.
Qed.

Lemma stalled_heap s st : heap st ⊆ heap (stalled s st).
Proof.
  unfold stalled; cbn [heap]. apply insert_subseteq.
  apply not_elem_of_dom, is_fresh.
Qed.

Lemma indicated_heap s st : heap st ⊆ heap (indicated s st).
Proof.
  unfold indicated. destruct (Nat.leb 14 (length s));
    [apply attached_heap | apply stalled_heap].
Qed.

Lemma settled_heap s st : heap st ⊆ heap (settled s st).
Proof.
  unfold settled. case_bool_decide; [done | apply indicated_heap].
Qed.

Lemma attached_tracks s st : 14 <= length s -> tracks s (attached s st).
Proof. intros Hlen. right. split; [apply attached_data | done]. Qed.

(** A larger store with the same [self.data] holds the same frame. *)
Lemma tracks_weaken s st st' :
  tracks s st -> heap st ⊆ heap st' -> data st' = data st -> tracks s st'.
Proof.
  intros Ht Hsub Hd. unfold tracks. rewrite Hd.
  destruct Ht as [Hr|[Ha Hlen]].
  - left. by eapply lookup_weaken.
  - right. split; [by eapply lookup_weaken | done].
Qed.

Lemma stalled_tracks s st : tracks s st -> tracks s (stalled s st).
Proof. intros Ht. eapply tracks_weaken; [exact Ht | apply stalled_heap | done]. Qed.

Lemma indicated_tracks s st : tracks s st -> tracks s (indicated s st).
Proof.
  intros Ht. unfold indicated. destruct (Nat.leb_spec 14 (length s)).
  - by apply attached_tracks.
  - by apply stalled_tracks.
Qed.

Lemma settled_tracks s st : tracks s st -> tracks s (settled s st).
Proof.
  intros Ht. unfold settled. case_bool_decide; [done | by apply indicated_tracks].
Qed.

Lemma with_signals_tracks s st : tracks s st -> tracks s (with_signals s st).
Proof.
  destruct (with_signals_data s st) as [Hh Hd]. unfold tracks. by rewrite Hh, Hd.
Qed.

Lemma run_op_tracks s o st :
  tracks s st -> tracks s (run_op o st) /\ heap st ⊆ heap (run_op o st).
Proof.
  intros Ht. destruct o; cbn [run_op].
  - rewrite (add_technical_indicators_tracks _ _ Ht); cbn [snd].
    split; [by apply indicated_tracks | apply indicated_heap].
  - rewrite (analyze_trend_tracks _ _ Ht); cbn [snd].
    split; [by apply settled_tracks | apply settled_heap].
  - rewrite (analyze_momentum_tracks _ _ Ht); cbn [snd].
    split; [by apply settled_tracks | apply settled_heap].
  - rewrite (analyze_volatility_tracks _ _ Ht); cbn [snd].
    split; [by apply settled_tracks | apply settled_heap].
  - rewrite (generate_signals_tracks _ _ Ht); cbn [snd].
    split.
    + by apply with_signals_tracks, settled_tracks.
    + rewrite (proj1 (with_signals_data _ _)). apply settled_heap.
  - rewrite (get_summary_tracks _ _ Ht); cbn [snd].
    split.
    + by apply with_signals_tracks, indicated_tracks.
    + rewrite (proj1 (with_signals_data _ _)). apply indicated_heap.
Qed.

Lemma run_ops_tracks s os st :
  tracks s st -> tracks s (run_ops os st) /\ heap st ⊆ heap (run_ops os st).
Proof.
  revert st. induction os as [|o os IH]; intros st Ht; cbn [run_ops foldl].
  - done.
  - destruct (run_op_tracks s o st Ht) as [Ht' Hsub].
    destruct (IH _ Ht') as [Ht'' Hsub'].
    split; [exact Ht'' | by etrans].
Qed.

Lemma new_analyzer_data h l s :
  heap (new_analyzer h l s) !! data (new_analyzer h l s) = Some (frame_of_series s).
Proof.
  unfold new_analyzer, StockAnalyzer; cbn [heap data].
  by rewrite lookup_insert_eq, lookup_total_insert_eq.
Qed.

Lemma new_analyzer_tracks h l s : tracks s (new_analyzer h l s).
Proof. left. apply new_analyzer_data. Qed.

Lemma new_analyzer_heap h l s :
  <[l := frame_of_series s]> h ⊆ heap (new_analyzer h l s).
Proof.
  unfold new_analyzer, StockAnalyzer; cbn [heap]. apply insert_subseteq.
  apply not_elem_of_dom, is_fresh.
Qed.
End Runs.

(** ** Comparisons with an undefined value *)

Section FloatFacts.

Lemma SFcompare_refl f : f <> S754_nan -> SFcompare f f = Some Eq.
Proof.
  destruct f as [sg|sg| |sg m e]; intros Hf; try done; destruct sg; cbn;
    try done; by rewrite Z.compare_refl, Pos.compare_cont_refl.
Qed.

Lemma isna_nan x : isna x = true -> Prim2SF x = S754_nan.
Proof.
  unfold isna. rewrite FloatAxioms.eqb_spec. unfold SFeqb. intros Hx.
  destruct (Prim2SF x) as [sg|sg| |sg m e] eqn:E; [| |done|];
    by rewrite SFcompare_refl in Hx.
Qed.

Lemma ltb_na_l x y : isna x = true -> PrimFloat.ltb x y = false.
Proof.
  intros Hx. rewrite FloatAxioms.ltb_spec, (isna_nan _ Hx). done.
Qed.

Lemma ltb_na_r x y : isna y = true -> PrimFloat.ltb x y = false.
Proof.
  intros Hy. rewrite FloatAxioms.ltb_spec, (isna_nan _ Hy).
  unfold SFltb. by destruct (Prim2SF x).
Qed.

Lemma ltb_eqb x y : PrimFloat.eqb x y = true -> PrimFloat.ltb y x = false.
Proof.
  rewrite FloatAxioms.eqb_spec, FloatAxioms.ltb_spec. unfold SFeqb, SFltb.
  generalize (Prim2SF x) (Prim2SF y). intros f g.
  destruct f as [sf|sf| |sf mf ef], g as [sg|sg| |sg mg eg]; cbn; try done;
    try (by destruct sf); try (by destruct sg); try (by destruct sf, sg).
  destruct sf, sg; try done.
  - destruct (Z.compare_spec ef eg), (Z.compare_spec eg ef); try done; try lia.
    change Eq with (CompOpp Eq) at 2.
    rewrite <- (Pos.compare_cont_antisym mf mg Eq).
    by destruct (Pos.compare_cont Eq mf mg).
  - destruct (Z.compare_spec ef eg), (Z.compare_spec eg ef); try done; try lia.
    change Eq with (CompOpp Eq) at 2.
    rewrite <- (Pos.compare_cont_antisym mf mg Eq).
    by destruct (Pos.compare_cont Eq mf mg).
Qed.

End FloatFacts.

(** * Properties of the analyzer *)

Section Claims.
Context `{TALib}.

Local Ltac dict_lookup :=
  repeat (rewrite lookup_insert_ne by discriminate); apply lookup_insert_eq.

Lemma signals_dict_recommendation t r m bnd b sl :
  signals_dict t r m bnd b sl !! "recommendation"
  = Some (VStr (if Nat.ltb sl b then BUY else if Nat.ltb b sl then SELL else HOLD)).
Proof.
  unfold signals_dict. destruct (Nat.ltb sl b), (Nat.ltb b sl); dict_lookup.
Qed.

Lemma signals_dict_confidence t r m bnd b sl :
  signals_dict t r m bnd b sl !! "confidence"
  = Some (VStr (pretty (Nat.max b sl) +:+ "/3")).
Proof. unfold signals_dict. apply lookup_insert_eq. Qed.

Lemma votes_bounds t r m :
  1 <= buy_votes t r m + sell_votes t r m <= 3
  /\ (buy_votes t r m = sell_votes t r m -> buy_votes t r m = 1).
Proof. destruct t, r, m; cbn; lia. Qed.

Lemma generate_signals_run h l s :
  (generate_signals (new_analyzer h l s)).1 = signals_result s.
Proof. by rewrite (generate_signals_tracks s _ (new_analyzer_tracks h l s)). Qed.

Lemma tally_run h l s :
  (tally (new_analyzer h l s)).1 = tally_result s.
Proof. by rewrite (tally_tracks s _ (new_analyzer_tracks h l s)). Qed.

(** C1: on every input series [generate_signals] either returns its
    dictionary or raises [IndexError], the latter only on a series of fewer
    than 14 bars, where the indicators cannot be computed.  Of the dictionary
    it returns: the tally behind it is the pair of vote counts of the three
    rules (short-term trend, RSI, MACD); the recommendation is BUY exactly
    when the buy votes exceed the sell votes, SELL exactly when the sell
    votes exceed the buy votes and HOLD exactly when neither does; the
    confidence is the larger count followed by "/3". *)
Theorem generate_signals_vote_rule (h : gmap loc DataFrame) (l : loc) (s : list Bar) :
  match (generate_signals (new_analyzer h l s)).1 with
  | Ok sig =>
      (tally (new_analyzer h l s)).1 = Ok (buy_votes_at s, sell_votes_at s)
      /\ (sig !! "recommendation" = Some (VStr BUY)
          <-> sell_votes_at s < buy_votes_at s)
      /\ (sig !! "recommendation" = Some (VStr SELL)
          <-> buy_votes_at s < sell_votes_at s)
      /\ (sig !! "recommendation" = Some (VStr HOLD)
          <-> ~ sell_votes_at s < buy_votes_at s /\ ~ buy_votes_at s < sell_votes_at s)
      /\ sig !! "confidence"
         = Some (VStr (pretty (Nat.max (buy_votes_at s) (sell_votes_at s)) +:+ "/3"))
  | Raise e => e = IndexError /\ length s < 14
  end.
Proof.
  rewrite generate_signals_run, tally_run. unfold signals_result, tally_result.
  destruct (Nat.leb_spec 14 (length s)) as [Hlen|Hlen]; [|done].
  split; [done|].
  unfold signals_of. rewrite signals_dict_recommendation, signals_dict_confidence.
  generalize (buy_votes_at s) (sell_votes_at s). intros b sl.
  destruct (Nat.ltb_spec sl b), (Nat.ltb_spec b sl); try lia;
    split_and!; try done; split; intros Hx;
    first [ lia | discriminate Hx | done | (split; lia) ].
Qed.

Lemma trend_info_long c s20 s50 s200 :
  trend_info_of c s20 s50 s200 !! "long_term_trend"
  = Some (VStr (if fgt s50 s200 then GOLDEN_CROSS
                else if flt s50 s200 then DEATH_CROSS else NEUTRAL_TREND)).
Proof.
  unfold trend_info_of.
  destruct (fgt c s20 && fgt s20 s50)%bool, (flt c s20 && flt s20 s50)%bool,
    (fgt s50 s200), (flt s50 s200); dict_lookup.
Qed.

Lemma momentum_info_stoch r m sg k d :
  momentum_info_of r m sg k d !! "stoch_signal"
  = Some (VStr (if fgt k 80%float then OVERBOUGHT
                else if flt k 20%float then OVERSOLD else NEUTRAL)).
Proof.
  unfold momentum_info_of.
  destruct (fgt r 70), (flt r 30), (fgt m sg), (fgt k 80), (flt k 20); dict_lookup.
Qed.

Lemma analyze_trend_run h l s :
  (analyze_trend (new_analyzer h l s)).1 = trend_result s.
Proof. by rewrite (analyze_trend_tracks s _ (new_analyzer_tracks h l s)). Qed.

Lemma analyze_momentum_run h l s :
  (analyze_momentum (new_analyzer h l s)).1 = momentum_result s.
Proof. by rewrite (analyze_momentum_tracks s _ (new_analyzer_tracks h l s)). Qed.

Lemma analyze_volatility_run h l s :
  (analyze_volatility (new_analyzer h l s)).1 = volatility_result s.
Proof. by rewrite (analyze_volatility_tracks s _ (new_analyzer_tracks h l s)). Qed.

Lemma get_summary_run h l s :
  (get_summary (new_analyzer h l s)).1 = summary_result s.
Proof. by rewrite (get_summary_tracks s _ (new_analyzer_tracks h l s)). Qed.

Lemma leb_2_1 n : 2 <= n -> Nat.leb 2 n = true /\ Nat.leb 1 n = true.
Proof. intros Hn. split; apply Nat.leb_le; lia. Qed.

(** What a method returned, on a fresh analyzer, is its value on the series. *)
Lemma analyze_trend_returned h l s t :
  (analyze_trend (new_analyzer h l s)).1 = Ok t -> t = trend_of s /\ 14 <= length s.
Proof.
  rewrite analyze_trend_run. unfold trend_result.
  destruct (Nat.leb_spec 14 (length s)); [|done]. intros [= <-]. done.
Qed.

Lemma analyze_momentum_returned h l s m :
  (analyze_momentum (new_analyzer h l s)).1 = Ok m -> m = momentum_of s /\ 14 <= length s.
Proof.
  rewrite analyze_momentum_run. unfold momentum_result.
  destruct (Nat.leb_spec 14 (length s)); [|done]. intros [= <-]. done.
Qed.

Lemma generate_signals_returned h l s sig :
  (generate_signals (new_analyzer h l s)).1 = Ok sig ->
  sig = signals_of s /\ 14 <= length s.
Proof.
  rewrite generate_signals_run. unfold signals_result.
  destruct (Nat.leb_spec 14 (length s)); [|done]. intros [= <-]. done.
Qed.

Lemma get_summary_returned h l s sm :
  (get_summary (new_analyzer h l s)).1 = Ok sm -> sm = summary_of s /\ 14 <= length s.
Proof.
  rewrite get_summary_run. unfold summary_result.
  destruct (Nat.leb_spec 14 (length s)); [|done]. intros [= <-]. done.
Qed.

(** C2, as the code has it: on a series of at least 14 bars the three
    analyses return, and a classification whose indicator is undefined
    ([nan]) at the latest bar takes the last branch of its comparison chain:
    long-term trend neutral, short-term trend sideways, RSI and stochastic
    signal neutral, MACD bearish, Bollinger position within the bands. *)
Theorem undefined_indicator_falls_through
    (h : gmap loc DataFrame) (l : loc) (s : list Bar) :
  14 <= length s ->
  exists t m v : Dict,
    (analyze_trend (new_analyzer h l s)).1 = Ok t
    /\ (analyze_momentum (new_analyzer h l s)).1 = Ok m
    /\ (analyze_volatility (new_analyzer h l s)).1 = Ok v
    /\ (isna (latest s "SMA_50") = true \/ isna (latest s "SMA_200") = true ->
        t !! "long_term_trend" = Some (VStr NEUTRAL_TREND))
    /\ (isna (latest s "Close") = true \/ isna (latest s "SMA_20") = true
        \/ isna (latest s "SMA_50") = true ->
        t !! "short_term_trend" = Some (VStr SIDEWAYS))
    /\ (isna (latest s "RSI") = true ->
        m !! "rsi_signal" = Some (VStr NEUTRAL))
    /\ (isna (latest s "MACD") = true \/ isna (latest s "MACD_Signal") = true ->
        m !! "macd_signal" = Some (VStr BEARISH))
    /\ (isna (latest s "Stoch_K") = true ->
        m !! "stoch_signal" = Some (VStr NEUTRAL))
    /\ (isna (latest s "Close") = true
        \/ (isna (latest s "BB_Upper") = true /\ isna (latest s "BB_Lower") = true) ->
        v !! "bb_position" = Some (VStr WITHIN_BANDS)).
Proof.
  intros Hlen. pose proof (proj2 (Nat.leb_le _ _) Hlen) as E.
  exists (trend_of s), (momentum_of s), (volatility_of s).
  rewrite analyze_trend_run, analyze_momentum_run, analyze_volatility_run.
  unfold trend_result, momentum_result, volatility_result. rewrite E.
  split_and!; try done.
  - intros Hna. unfold trend_of. rewrite trend_info_long. unfold fgt, flt.
    destruct Hna as [Hna|Hna];
      by rewrite ?(ltb_na_l _ _ Hna), ?(ltb_na_r _ _ Hna).
  - intros Hna. unfold trend_of. rewrite trend_info_short.
    unfold short_term_class, fgt, flt.
    destruct Hna as [Hna|[Hna|Hna]];
      by rewrite ?(ltb_na_l _ _ Hna), ?(ltb_na_r _ _ Hna), ?andb_false_r.
  - intros Hna. unfold momentum_of. rewrite momentum_info_rsi.
    unfold rsi_class_of, fgt, flt.
    by rewrite ?(ltb_na_l _ _ Hna), ?(ltb_na_r _ _ Hna).
  - intros Hna. unfold momentum_of. rewrite momentum_info_macd.
    unfold macd_class_of, fgt.
    destruct Hna as [Hna|Hna];
      by rewrite ?(ltb_na_l _ _ Hna), ?(ltb_na_r _ _ Hna).
  - intros Hna. unfold momentum_of. rewrite momentum_info_stoch.
    unfold fgt, flt.
    by rewrite ?(ltb_na_l _ _ Hna), ?(ltb_na_r _ _ Hna).
  - intros Hna. unfold volatility_of. rewrite volatility_info_bb.
    unfold band_class_of, fgt, flt.
    destruct Hna as [Hna|[Hu Hl]].
    + by rewrite ?(ltb_na_l _ _ Hna), ?(ltb_na_r _ _ Hna).
    + by rewrite (ltb_na_l _ _ Hu), (ltb_na_r _ _ Hl).
Qed.


(** C4: on every input series [analyze_momentum] and [generate_signals]
    either both return or both raise [IndexError], the latter only on fewer
    than 14 bars.  When they return, the momentum dictionary labels MACD
    bullish exactly when the latest MACD is strictly greater than the latest
    MACD signal and bearish otherwise, equality included; [generate_signals]
    reports that label, and the MACD vote is always in its counts: one buy
    vote when bullish, one sell vote in every other case, on top of the votes
    of the trend and RSI rules; its recommendation and confidence are the
    ones of these counts. *)
Theorem macd_label_and_vote (h : gmap loc DataFrame) (l : loc) (s : list Bar) :
  let macd_v := latest s "MACD" in
  let macd_sig := latest s "MACD_Signal" in
  let buy := (trend_vote (trend_class_at s)).1 + (rsi_vote (rsi_class_at s)).1
             + (if fgt macd_v macd_sig then 1 else 0) in
  let sell := (trend_vote (trend_class_at s)).2 + (rsi_vote (rsi_class_at s)).2
              + (if fgt macd_v macd_sig then 0 else 1) in
  match (analyze_momentum (new_analyzer h l s)).1,
        (generate_signals (new_analyzer h l s)).1 with
  | Ok d, Ok sig =>
      (d !! "macd_signal" = Some (VStr BULLISH) <-> fgt macd_v macd_sig = true)
      /\ (d !! "macd_signal" = Some (VStr BEARISH) <-> fgt macd_v macd_sig = false)
      /\ (PrimFloat.eqb macd_v macd_sig = true ->
          d !! "macd_signal" = Some (VStr BEARISH))
      /\ sig !! "macd" = d !! "macd_signal"
      /\ (tally (new_analyzer h l s)).1 = Ok (buy, sell)
      /\ sig !! "recommendation"
         = Some (VStr (if Nat.ltb sell buy then BUY
                       else if Nat.ltb buy sell then SELL else HOLD))
      /\ sig !! "confidence" = Some (VStr (pretty (Nat.max buy sell) +:+ "/3"))
  | Raise e1, Raise e2 => e1 = IndexError /\ e2 = IndexError /\ length s < 14
  | _, _ => False
  end.
Proof.
  intros macd_v macd_sig buy sell.
  rewrite analyze_momentum_run, generate_signals_run, tally_run.
  unfold momentum_result, signals_result, tally_result.
  destruct (Nat.leb_spec 14 (length s)) as [Hlen|Hlen]; [|done].
  assert (buy_votes_at s = buy /\ sell_votes_at s = sell) as [Eb Es].
  { unfold buy, sell, buy_votes_at, sell_votes_at, buy_votes, sell_votes,
      macd_class_at, macd_class_of. fold macd_v macd_sig.
    by destruct (fgt macd_v macd_sig). }
  unfold signals_of. rewrite Eb, Es.
  rewrite signals_dict_recommendation, signals_dict_confidence.
  unfold signals_dict at 1.
  unfold momentum_of. rewrite momentum_info_macd. fold macd_v macd_sig.
  unfold macd_class_at, macd_class_of. fold macd_v macd_sig.
  assert (PrimFloat.eqb macd_v macd_sig = true -> fgt macd_v macd_sig = false) as Heq
    by (unfold fgt; apply ltb_eqb).
  split_and!; try done.
  - destruct (fgt macd_v macd_sig); split; intros Hx; done || discriminate Hx.
  - destruct (fgt macd_v macd_sig); split; intros Hx; done || discriminate Hx.
  - intros Hx. by rewrite (Heq Hx).
  - destruct (Nat.ltb sell buy), (Nat.ltb buy sell); dict_lookup.
Qed.


(** C6: the summary is a function of the series alone.  Two analyzers built
    on identical copies of a series, wherever the copies live and whatever
    else the store holds, return identical results; and asking the same
    analyzer again returns the first answer. *)
Theorem get_summary_deterministic
    (h1 h2 : gmap loc DataFrame) (l1 l2 : loc) (s : list Bar) :
  (get_summary (new_analyzer h1 l1 s)).1 = (get_summary (new_analyzer h2 l2 s)).1
  /\ (get_summary (get_summary (new_analyzer h1 l1 s)).2).1
     = (get_summary (new_analyzer h1 l1 s)).1.
Proof.
  split.
  - by rewrite !get_summary_run.
  - pose proof (new_analyzer_tracks h1 l1 s) as Ht.
    rewrite (get_summary_tracks s _ Ht); cbn [fst snd].
    by rewrite (get_summary_tracks s _
                  (with_signals_tracks _ _ (indicated_tracks _ _ Ht))).
Qed.

(** C7: after constructing the analyzer and running any sequence of its
    operations, returning or raising, the caller's frame still holds the
    series that was passed in, and so does every other object the store held
    before. *)
Theorem caller_series_unchanged
    (h : gmap loc DataFrame) (l : loc) (s : list Bar) (os : list op) :
  heap (run_ops os (new_analyzer h l s)) !! l = Some (frame_of_series s)
  /\ <[l := frame_of_series s]> h ⊆ heap (run_ops os (new_analyzer h l s)).
Proof.
  destruct (run_ops_tracks s os _ (new_analyzer_tracks h l s)) as [_ Hsub].
  pose proof (new_analyzer_heap h l s) as Hnew.
  assert (<[l := frame_of_series s]> h ⊆ heap (run_ops os (new_analyzer h l s)))
    as Hall by (by etrans).
  split; [|done].
  eapply lookup_weaken; [apply lookup_insert_eq | exact Hall].
Qed.

(** C9: on every input series [generate_signals] and its tally either both
    return or both raise [IndexError], the latter only on fewer than 14 bars.
    When they return, the tally holds at least one vote and the confidence,
    which is the larger count followed by "/3", is never "0/3"; the
    recommendation is HOLD exactly when the two counts are equal, and equal
    counts are one vote each. *)
Theorem at_least_one_vote (h : gmap loc DataFrame) (l : loc) (s : list Bar) :
  match (tally (new_analyzer h l s)).1, (generate_signals (new_analyzer h l s)).1 with
  | Ok (buy, sell), Ok sig =>
      1 <= buy + sell
      /\ sig !! "confidence" = Some (VStr (pretty (Nat.max buy sell) +:+ "/3"))
      /\ sig !! "confidence" <> Some (VStr "0/3")
      /\ (sig !! "recommendation" = Some (VStr HOLD) <-> buy = sell)
      /\ (buy = sell -> buy = 1 /\ sell = 1)
  | Raise e1, Raise e2 => e1 = IndexError /\ e2 = IndexError /\ length s < 14
  | _, _ => False
  end.
Proof.
  rewrite generate_signals_run, tally_run. unfold signals_result, tally_result.
  destruct (Nat.leb_spec 14 (length s)) as [Hlen|Hlen]; [|done].
  unfold signals_of. rewrite signals_dict_recommendation, signals_dict_confidence.
  unfold buy_votes_at, sell_votes_at.
  destruct (votes_bounds (trend_class_at s) (rsi_class_at s) (macd_class_at s))
    as [[Hlo Hhi] Htie].
  split_and!; try done.
  - destruct (trend_class_at s), (rsi_class_at s), (macd_class_at s);
      vm_compute; discriminate.
  - destruct (Nat.ltb_spec
                (sell_votes (trend_class_at s) (rsi_class_at s) (macd_class_at s))
                (buy_votes (trend_class_at s) (rsi_class_at s) (macd_class_at s)));
      [split; [discriminate | lia]|].
    destruct (Nat.ltb_spec
                (buy_votes (trend_class_at s) (rsi_class_at s) (macd_class_at s))
                (sell_votes (trend_class_at s) (rsi_class_at s) (macd_class_at s)));
      [split; [discriminate | lia]|].
    split; [lia | done].
  - intros E. split; [by apply Htie | rewrite <- E; by apply Htie].
Qed.

(** C10: on a series of fewer than two bars [analyze_trend], and with it
    [generate_signals] and [get_summary], raise [IndexError]; and in the
    state the indicator computation leaves, the access to the second-to-last
    bar of [self.data] is out of range. *)
Theorem short_series_index_error
    (h : gmap loc DataFrame) (l : loc) (s : list Bar) :
  length s < 2 ->
  (analyze_trend (new_analyzer h l s)).1 = Raise IndexError
  /\ (generate_signals (new_analyzer h l s)).1 = Raise IndexError
  /\ (get_summary (new_analyzer h l s)).1 = Raise IndexError
  /\ (let st := (add_technical_indicators (new_analyzer h l s)).2 in
      (iloc (data st) (-2)%Z st).1 = Raise IndexError).
Proof.
  intros Hlen.
  rewrite analyze_trend_run, generate_signals_run, get_summary_run.
  unfold trend_result, signals_result, summary_result.
  assert (Nat.leb 14 (length s) = false) as E by (apply Nat.leb_gt; lia).
  rewrite E. split_and!; try done.
  pose proof (new_analyzer_tracks h l s) as Ht.
  rewrite (add_technical_indicators_tracks s _ Ht). cbn [snd].
  assert (heap (indicated s (new_analyzer h l s)) !! data (indicated s (new_analyzer h l s))
          = Some (frame_of_series s)) as Hd.
  { apply tracks_short; [by apply indicated_tracks | lia]. }
  rewrite (iloc_prev _ _ Hd). cbn [nrows frame_of_series fst].
  by rewrite (proj2 (Nat.leb_gt _ _) Hlen).
Qed.

End Claims.

(** * The analyzer on sample series *)

Section Samples.
Import SpecTA.

#[local] Existing Instance SpecTA.lib.

(** C2 fails as worded.  On twenty rising bars SMA_200 is undefined at the
    latest bar, [analyze_trend] returns, and the long-term trend it reports
    is the neutral label, not "Undetermined"; and on ten rising bars, the
    length of the scenario, the analysis does not come back at all: it raises
    [IndexError]. *)
Lemma undefined_sma_200_reads_neutral :
  isna (latest (rising 20) "SMA_200") = true
  /\ (analyze_trend (new_analyzer ∅ 1%positive (rising 20))).1
     = Ok (trend_of (rising 20))
  /\ trend_of (rising 20) !! "long_term_trend" = Some (VStr NEUTRAL_TREND)
  /\ trend_of (rising 20) !! "long_term_trend" <> Some (VStr "Undetermined")
  /\ (analyze_trend (new_analyzer ∅ 1%positive (rising 10))).1 = Raise IndexError.
Proof.
  split_and!.
  - vm_compute. reflexivity.
  - vm_compute. reflexivity.
  - vm_compute. reflexivity.
  - vm_compute. discriminate.
  - vm_compute. reflexivity.
Qed.

Lemma undefined_indicator_falls_through_witness :
  14 <= length (rising 20)
  /\ exists t m v : Dict,
      (analyze_trend (new_analyzer ∅ 1%positive (rising 20))).1 = Ok t
      /\ (analyze_momentum (new_analyzer ∅ 1%positive (rising 20))).1 = Ok m
      /\ (analyze_volatility (new_analyzer ∅ 1%positive (rising 20))).1 = Ok v
      /\ (isna (latest (rising 20) "SMA_50") = true
          \/ isna (latest (rising 20) "SMA_200") = true ->
          t !! "long_term_trend" = Some (VStr NEUTRAL_TREND))
      /\ (isna (latest (rising 20) "Close") = true
          \/ isna (latest (rising 20) "SMA_20") = true
          \/ isna (latest (rising 20) "SMA_50") = true ->
          t !! "short_term_trend" = Some (VStr SIDEWAYS))
      /\ (isna (latest (rising 20) "RSI") = true ->
          m !! "rsi_signal" = Some (VStr NEUTRAL))
      /\ (isna (latest (rising 20) "MACD") = true
          \/ isna (latest (rising 20) "MACD_Signal") = true ->
          m !! "macd_signal" = Some (VStr BEARISH))
      /\ (isna (latest (rising 20) "Stoch_K") = true ->
          m !! "stoch_signal" = Some (VStr NEUTRAL))
      /\ (isna (latest (rising 20) "Close") = true
          \/ (isna (latest (rising 20) "BB_Upper") = true
              /\ isna (latest (rising 20) "BB_Lower") = true) ->
          v !! "bb_position" = Some (VStr WITHIN_BANDS)).
Proof.
  split.
  - vm_compute. lia.
  - apply (undefined_indicator_falls_through ∅ 1%positive (rising 20)).
    vm_compute. lia.
Defined.



Lemma short_series_index_error_witness :
  length [bar_at 100] < 2
  /\ (analyze_trend (new_analyzer ∅ 1%positive [bar_at 100])).1 = Raise IndexError
  /\ (generate_signals (new_analyzer ∅ 1%positive [bar_at 100])).1 = Raise IndexError
  /\ (get_summary (new_analyzer ∅ 1%positive [bar_at 100])).1 = Raise IndexError
  /\ (let st := (add_technical_indicators (new_analyzer ∅ 1%positive [bar_at 100])).2 in
      (iloc (data st) (-2)%Z st).1 = Raise IndexError).
Proof.
  split.
  - vm_compute. lia.
  - apply (short_series_index_error ∅ 1%positive [bar_at 100]). vm_compute. lia.
Defined.

(** Fourteen bars are the first length at which the analyses come back:
    thirteen bars stop at the average true range, in every method. *)
Example thirteen_bars_raise :
  (add_technical_indicators (new_analyzer ∅ 1%positive (rising 13))).1 = Raise IndexError
  /\ (analyze_momentum (new_analyzer ∅ 1%positive (rising 13))).1 = Raise IndexError
  /\ (analyze_volatility (new_analyzer ∅ 1%positive (rising 13))).1 = Raise IndexError
  /\ (get_summary (new_analyzer ∅ 1%positive (rising 13))).1 = Raise IndexError.
Proof. split_and!; vm_compute; reflexivity. Qed.

Example fourteen_bars_return :
  (get_summary (new_analyzer ∅ 1%positive (rising 14))).1 = Ok (summary_of (rising 14))
  /\ (generate_signals (new_analyzer ∅ 1%positive (rising 14))).1
     = Ok (signals_of (rising 14)).
Proof. split_and!; vm_compute; reflexivity. Qed.

(** The flat-series scenario: 250 bars at 100 give one sell vote (MACD equals
    its signal, which is bearish) and no buy vote. *)
Example flat_series_signals :
  (tally (new_analyzer ∅ 1%positive (flat 250))).1 = Ok (0, 1)
  /\ signals_of (flat 250) !! "recommendation" = Some (VStr SELL)
  /\ signals_of (flat 250) !! "confidence" = Some (VStr "1/3").
Proof. split_and!; vm_compute; reflexivity. Qed.

(** A BUY at two votes: 201 bars falling by 1 a day are oversold and bullish
    on MACD, against one sell vote for the downtrend. *)
Example falling_series_signals :
  (tally (new_analyzer ∅ 1%positive (falling 201))).1 = Ok (2, 1)
  /\ signals_of (falling 201) !! "recommendation" = Some (VStr BUY)
  /\ signals_of (falling 201) !! "confidence" = Some (VStr "2/3").
Proof. split_and!; vm_compute; reflexivity. Qed.

End Samples.

(** * More on the order of floats *)

Section FloatOrder.

Lemma SFltb_key f g :
  SFltb f g = true <-> f <> S754_nan /\ g <> S754_nan /\ key_lt (order_key f) (order_key g).
Proof.
  unfold SFltb, key_lt.
  destruct f as [sf|sf| |sf mf ef], g as [sg|sg| |sg mg eg]; cbn;
    try (destruct sf); try (destruct sg); cbn;
    try (split; [done | intros (? & ? & ?); done || lia]);
    try (split; [intros _; split_and!; done || lia | done]).
  - change (PosDef.Pos.compare_cont Eq mf mg) with (Pos.compare mf mg).
    destruct (Z.compare_spec ef eg), (Pos.compare_spec mf mg); cbn;
      (split; [intros ?; split_and!; done || lia | intros (? & ? & ?); done || lia]).
  - change (PosDef.Pos.compare_cont Eq mf mg) with (Pos.compare mf mg).
    destruct (Z.compare_spec ef eg), (Pos.compare_spec mf mg); cbn;
      (split; [intros ?; split_and!; done || lia | intros (? & ? & ?); done || lia]).
Qed.

Lemma ltb_asym x y : PrimFloat.ltb x y = true -> PrimFloat.ltb y x = false.
Proof.
  intros Hxy. apply not_true_is_false. intros Hyx.
  rewrite FloatAxioms.ltb_spec in Hxy, Hyx.
  apply SFltb_key in Hxy as (_ & _ & Hxy). apply SFltb_key in Hyx as (_ & _ & Hyx).
  unfold key_lt in *. lia.
Qed.

Lemma ltb_eqb_l x y : PrimFloat.eqb x y = true -> PrimFloat.ltb x y = false.
Proof.
  rewrite FloatAxioms.eqb_spec. intros Heq. apply not_true_is_false. intros Hlt.
  rewrite FloatAxioms.ltb_spec in Hlt. unfold SFeqb, SFltb in *.
  by destruct (SFcompare (Prim2SF x) (Prim2SF y)) as [[]|].
Qed.

Lemma ltb_trans x y z :
  PrimFloat.ltb x y = true -> PrimFloat.ltb y z = true -> PrimFloat.ltb x z = true.
Proof.
  intros Hxy Hyz. rewrite FloatAxioms.ltb_spec in *.
  apply SFltb_key in Hxy as (Hx & _ & Hxy). apply SFltb_key in Hyz as (_ & Hz & Hyz).
  apply SFltb_key. split_and!; try done. unfold key_lt in *. lia.
Qed.

End FloatOrder.

(** * More on the analyzer *)

Section MoreAnalyzer.
Context `{TALib}.

(** A three-way label: [a] when [b1], else [b] when [b2], else [c]. *)
Lemma three_way (b1 b2 : bool) (a b c : string) :
  a <> b -> a <> c -> b <> c -> (b1 = true -> b2 = false) ->
  (Some (VStr (if b1 then a else if b2 then b else c)) = Some (VStr a) <-> b1 = true)
  /\ (Some (VStr (if b1 then a else if b2 then b else c)) = Some (VStr b) <-> b2 = true)
  /\ (Some (VStr (if b1 then a else if b2 then b else c)) = Some (VStr c)
      <-> b1 = false /\ b2 = false).
Proof.
  intros Hab Hac Hbc Hex. destruct b1, b2; try (by specialize (Hex eq_refl));
    split_and!; split; intros Hx; try done; try (by destruct Hx); congruence.
Qed.

Lemma andb_conj (a b : bool) : (a && b)%bool = true <-> a = true /\ b = true.
Proof. apply andb_true_iff. Qed.

Lemma andb_nconj (a b : bool) : (a && b)%bool = false <-> ~ (a = true /\ b = true).
Proof. rewrite <- andb_conj. by destruct (a && b)%bool. Qed.

(** X1: in the dictionary [analyze_trend] returns, the short-term trend is
    the uptrend label exactly when close > SMA_20 and SMA_20 > SMA_50, the
    downtrend label exactly when close < SMA_20 and SMA_20 < SMA_50, and the
    sideways label exactly when neither chain holds; the two chains exclude
    each other. *)
Theorem short_term_trend_rule
    (h : gmap loc DataFrame) (l : loc) (s : list Bar) (t : Dict) :
  (analyze_trend (new_analyzer h l s)).1 = Ok t ->
  let close := latest s "Close" in
  let sma_20 := latest s "SMA_20" in
  let sma_50 := latest s "SMA_50" in
  (t !! "short_term_trend" = Some (VStr UPTREND)
   <-> fgt close sma_20 = true /\ fgt sma_20 sma_50 = true)
  /\ (t !! "short_term_trend" = Some (VStr DOWNTREND)
      <-> flt close sma_20 = true /\ flt sma_20 sma_50 = true)
  /\ (t !! "short_term_trend" = Some (VStr SIDEWAYS)
      <-> ~ (fgt close sma_20 = true /\ fgt sma_20 sma_50 = true)
          /\ ~ (flt close sma_20 = true /\ flt sma_20 sma_50 = true)).
Proof.
  intros [-> _]%analyze_trend_returned close sma_20 sma_50.
  unfold trend_of. rewrite trend_info_short. fold close sma_20 sma_50.
  replace (trend_label (short_term_class close sma_20 sma_50))
    with (if (fgt close sma_20 && fgt sma_20 sma_50)%bool then UPTREND
          else if (flt close sma_20 && flt sma_20 sma_50)%bool then DOWNTREND
          else SIDEWAYS)
    by (unfold short_term_class; by repeat case_match).
  destruct (three_way (fgt close sma_20 && fgt sma_20 sma_50)
              (flt close sma_20 && flt sma_20 sma_50) UPTREND DOWNTREND SIDEWAYS)
    as (H1 & H2 & H3); try discriminate.
  { intros [Hc _]%andb_conj. unfold fgt, flt in *. by rewrite (ltb_asym _ _ Hc). }
  split_and!.
  - by rewrite H1, andb_conj.
  - by rewrite H2, andb_conj.
  - by rewrite H3, !andb_nconj.
Qed.

(** X2: in the dictionary [analyze_trend] returns, the long-term trend is
    the golden-cross label exactly when SMA_50 > SMA_200, the death-cross
    label exactly when SMA_50 < SMA_200 and the neutral label exactly when
    neither holds; equal averages are neutral. *)
Theorem long_term_trend_rule
    (h : gmap loc DataFrame) (l : loc) (s : list Bar) (t : Dict) :
  (analyze_trend (new_analyzer h l s)).1 = Ok t ->
  let sma_50 := latest s "SMA_50" in
  let sma_200 := latest s "SMA_200" in
  (t !! "long_term_trend" = Some (VStr GOLDEN_CROSS) <-> fgt sma_50 sma_200 = true)
  /\ (t !! "long_term_trend" = Some (VStr DEATH_CROSS) <-> flt sma_50 sma_200 = true)
  /\ (t !! "long_term_trend" = Some (VStr NEUTRAL_TREND)
      <-> fgt sma_50 sma_200 = false /\ flt sma_50 sma_200 = false)
  /\ (PrimFloat.eqb sma_50 sma_200 = true ->
      t !! "long_term_trend" = Some (VStr NEUTRAL_TREND)).
Proof.
  intros [-> _]%analyze_trend_returned sma_50 sma_200.
  unfold trend_of. rewrite trend_info_long. fold sma_50 sma_200.
  assert (fgt sma_50 sma_200 = true -> flt sma_50 sma_200 = false) as Hex
    by (unfold fgt, flt; apply ltb_asym).
  destruct (three_way (fgt sma_50 sma_200) (flt sma_50 sma_200)
              GOLDEN_CROSS DEATH_CROSS NEUTRAL_TREND) as (H1 & H2 & H3);
    try discriminate; [done|].
  split_and!; try done.
  intros Heq. apply H3. unfold fgt, flt. split.
  - by apply ltb_eqb.
  - by apply ltb_eqb_l.
Qed.

Lemma fgt_flt_bounds r lo hi :
  PrimFloat.ltb hi lo = false -> fgt r hi = true -> flt r lo = false.
Proof.
  unfold fgt, flt. intros Hb Hhi. apply not_true_is_false. intros Hlo.
  by rewrite (ltb_trans _ _ _ Hhi Hlo) in Hb.
Qed.

(** X3: in the dictionary [analyze_momentum] returns, the RSI signal is
    overbought exactly above 70 and oversold exactly below 30, the stochastic
    signal overbought exactly above 80 and oversold exactly below 20, and
    each is neutral exactly in between, bounds and undefined values
    included. *)
Theorem oscillator_thresholds
    (h : gmap loc DataFrame) (l : loc) (s : list Bar) (m : Dict) :
  (analyze_momentum (new_analyzer h l s)).1 = Ok m ->
  let rsi_v := latest s "RSI" in
  let stoch_k := latest s "Stoch_K" in
  (m !! "rsi_signal" = Some (VStr OVERBOUGHT) <-> fgt rsi_v 70%float = true)
  /\ (m !! "rsi_signal" = Some (VStr OVERSOLD) <-> flt rsi_v 30%float = true)
  /\ (m !! "rsi_signal" = Some (VStr NEUTRAL)
      <-> fgt rsi_v 70%float = false /\ flt rsi_v 30%float = false)
  /\ (m !! "stoch_signal" = Some (VStr OVERBOUGHT) <-> fgt stoch_k 80%float = true)
  /\ (m !! "stoch_signal" = Some (VStr OVERSOLD) <-> flt stoch_k 20%float = true)
  /\ (m !! "stoch_signal" = Some (VStr NEUTRAL)
      <-> fgt stoch_k 80%float = false /\ flt stoch_k 20%float = false).
Proof.
  intros [-> _]%analyze_momentum_returned rsi_v stoch_k.
  unfold momentum_of. rewrite momentum_info_rsi, momentum_info_stoch.
  fold rsi_v stoch_k.
  replace (rsi_label (rsi_class_of rsi_v))
    with (if fgt rsi_v 70%float then OVERBOUGHT
          else if flt rsi_v 30%float then OVERSOLD else NEUTRAL)
    by (unfold rsi_class_of; by repeat case_match).
  destruct (three_way (fgt rsi_v 70%float) (flt rsi_v 30%float)
              OVERBOUGHT OVERSOLD NEUTRAL) as (R1 & R2 & R3); try discriminate.
  { apply fgt_flt_bounds. vm_compute. reflexivity. }
  destruct (three_way (fgt stoch_k 80%float) (flt stoch_k 20%float)
              OVERBOUGHT OVERSOLD NEUTRAL) as (S1 & S2 & S3); try discriminate.
  { apply fgt_flt_bounds. vm_compute. reflexivity. }
  by split_and!.
Qed.

Lemma momentum_info_shape r m sg k d :
  exists v1 v2 v3 : Value,
    momentum_info_of r m sg k d
    = <["stoch_signal" := v1]> (<["macd_signal" := v2]> (<["rsi_signal" := v3]>
        (<["stoch_d" := VNum d]> (<["stoch_k" := VNum k]>
          (<["macd_signal" := VNum sg]> (<["macd" := VNum m]>
            (<["rsi" := VNum r]> ∅))))))).
Proof.
  unfold momentum_info_of.
  destruct (fgt r 70), (flt r 30), (fgt m sg), (fgt k 80), (flt k 20);
    by do 3 eexists.
Qed.

(** X4: the dictionary [analyze_momentum] returns has seven keys, not eight:
    the label assigned to "macd_signal" replaces the numeric MACD signal
    stored under the same key, so that key always holds the bullish or the
    bearish label, while "macd" keeps its number. *)
Theorem momentum_macd_signal_is_label
    (h : gmap loc DataFrame) (l : loc) (s : list Bar) (m : Dict) :
  (analyze_momentum (new_analyzer h l s)).1 = Ok m ->
  dom m = list_to_set ["rsi"; "macd"; "macd_signal"; "stoch_k"; "stoch_d";
                       "rsi_signal"; "stoch_signal"]
  /\ m !! "macd" = Some (VNum (latest s "MACD"))
  /\ (m !! "macd_signal" = Some (VStr BULLISH)
      \/ m !! "macd_signal" = Some (VStr BEARISH)).
Proof.
  intros [-> _]%analyze_momentum_returned.
  unfold momentum_of.
  generalize (latest s "RSI") (latest s "MACD") (latest s "MACD_Signal")
    (latest s "Stoch_K") (latest s "Stoch_D"). intros r m sg k d.
  split_and!.
  - destruct (momentum_info_shape r m sg k d) as (v1 & v2 & v3 & ->).
    rewrite !dom_insert_L, dom_empty_L. cbn [list_to_set foldr]. set_solver.
  - destruct (momentum_info_shape r m sg k d) as (v1 & v2 & v3 & ->).
    repeat (rewrite lookup_insert_ne by discriminate). apply lookup_insert_eq.
  - rewrite momentum_info_macd. unfold macd_class_of.
    destruct (fgt m sg); [by left | by right].
Qed.

Lemma signals_dict_labels t r m bnd b sl :
  signals_dict t r m bnd b sl !! "trend" = Some (VStr (trend_label t))
  /\ signals_dict t r m bnd b sl !! "momentum" = Some (VStr (rsi_label r))
  /\ signals_dict t r m bnd b sl !! "macd" = Some (VStr (macd_label m))
  /\ signals_dict t r m bnd b sl !! "volatility" = Some (VStr (band_label bnd)).
Proof.
  unfold signals_dict.
  destruct (Nat.ltb sl b), (Nat.ltb b sl); split_and!;
    repeat (rewrite lookup_insert_ne by discriminate); apply lookup_insert_eq.
Qed.

Lemma signals_dict_dom t r m bnd b sl :
  dom (signals_dict t r m bnd b sl)
  = list_to_set ["trend"; "momentum"; "macd"; "volatility"; "recommendation";
                 "confidence"].
Proof.
  unfold signals_dict.
  destruct (Nat.ltb sl b), (Nat.ltb b sl);
    rewrite !dom_insert_L, dom_empty_L; cbn [list_to_set foldr]; set_solver.
Qed.

(** X6: when [generate_signals] returns, the four labels of its dictionary
    are the ones the three analyses report, its keys are the four labels, the
    recommendation and the confidence, and [self.signals] holds it; when it
    raises, [self.signals] is unchanged. *)
Theorem signals_mirror_analyses (h : gmap loc DataFrame) (l : loc) (s : list Bar) :
  match (generate_signals (new_analyzer h l s)).1 with
  | Ok sig =>
      exists t m v : Dict,
        (analyze_trend (new_analyzer h l s)).1 = Ok t
        /\ (analyze_momentum (new_analyzer h l s)).1 = Ok m
        /\ (analyze_volatility (new_analyzer h l s)).1 = Ok v
        /\ sig !! "trend" = t !! "short_term_trend"
        /\ sig !! "momentum" = m !! "rsi_signal"
        /\ sig !! "macd" = m !! "macd_signal"
        /\ sig !! "volatility" = v !! "bb_position"
        /\ dom sig = list_to_set ["trend"; "momentum"; "macd"; "volatility";
                                  "recommendation"; "confidence"]
        /\ signals (generate_signals (new_analyzer h l s)).2 = sig
  | Raise _ =>
      signals (generate_signals (new_analyzer h l s)).2 = signals (new_analyzer h l s)
  end.
Proof.
  pose proof (new_analyzer_tracks h l s) as Ht.
  rewrite (generate_signals_tracks s _ Ht). cbn [fst snd].
  rewrite analyze_trend_run, analyze_momentum_run, analyze_volatility_run.
  unfold signals_result, with_signals, trend_result, momentum_result,
    volatility_result.
  destruct (Nat.leb 14 (length s)).
  - exists (trend_of s), (momentum_of s), (volatility_of s).
    destruct (signals_dict_labels (trend_class_at s) (rsi_class_at s)
                (macd_class_at s) (band_class_at s) (buy_votes_at s) (sell_votes_at s))
      as (L1 & L2 & L3 & L4).
    unfold signals_of. rewrite L1, L2, L3, L4, signals_dict_dom.
    unfold trend_of, momentum_of, volatility_of.
    rewrite trend_info_short, momentum_info_rsi, momentum_info_macd,
      volatility_info_bb.
    by split_and!.
  - unfold settled, indicated, stalled, attached.
    by repeat (case_bool_decide || case_match).
Qed.

Lemma trend_label_inv t :
  (Some (VStr (trend_label t)) = Some (VStr UPTREND) <-> t = Uptrend)
  /\ (Some (VStr (trend_label t)) = Some (VStr DOWNTREND) <-> t = Downtrend)
  /\ (Some (VStr (trend_label t)) = Some (VStr SIDEWAYS) <-> t = Sideways).
Proof. destruct t; split_and!; split; intros Hx; done || discriminate Hx. Qed.

Lemma rsi_label_inv r :
  (Some (VStr (rsi_label r)) = Some (VStr OVERBOUGHT) <-> r = Overbought)
  /\ (Some (VStr (rsi_label r)) = Some (VStr OVERSOLD) <-> r = Oversold)
  /\ (Some (VStr (rsi_label r)) = Some (VStr NEUTRAL) <-> r = RsiNeutral).
Proof. destruct r; split_and!; split; intros Hx; done || discriminate Hx. Qed.

Lemma macd_label_inv m :
  (Some (VStr (macd_label m)) = Some (VStr BULLISH) <-> m = Bullish)
  /\ (Some (VStr (macd_label m)) = Some (VStr BEARISH) <-> m = Bearish).
Proof. destruct m; split_and!; split; intros Hx; done || discriminate Hx. Qed.

Lemma confidence_full n :
  n <= 3 -> Some (VStr (pretty n +:+ "/3")) = Some (VStr "3/3") <-> n = 3.
Proof.
  intros Hn. destruct n as [|[|[|[|n]]]]; [| | | |lia];
    split; intros Hx; first [done | discriminate Hx | by vm_compute in Hx].
Qed.

(** X12: in the dictionary [generate_signals] returns, read off its own
    labels, the recommendation is HOLD exactly when one of the trend and RSI
    rules votes, the other abstains, and that vote opposes MACD; the
    confidence is "3/3" exactly when the three rules vote the same side. *)
Theorem hold_and_full_confidence
    (h : gmap loc DataFrame) (l : loc) (s : list Bar) (sig : Dict) :
  (generate_signals (new_analyzer h l s)).1 = Ok sig ->
  (sig !! "recommendation" = Some (VStr HOLD)
   <-> (sig !! "macd" = Some (VStr BULLISH)
        /\ ((sig !! "trend" = Some (VStr DOWNTREND)
             /\ sig !! "momentum" = Some (VStr NEUTRAL))
            \/ (sig !! "trend" = Some (VStr SIDEWAYS)
                /\ sig !! "momentum" = Some (VStr OVERBOUGHT))))
       \/ (sig !! "macd" = Some (VStr BEARISH)
           /\ ((sig !! "trend" = Some (VStr UPTREND)
                /\ sig !! "momentum" = Some (VStr NEUTRAL))
               \/ (sig !! "trend" = Some (VStr SIDEWAYS)
                   /\ sig !! "momentum" = Some (VStr OVERSOLD)))))
  /\ (sig !! "confidence" = Some (VStr "3/3")
      <-> (sig !! "trend" = Some (VStr UPTREND)
           /\ sig !! "momentum" = Some (VStr OVERSOLD)
           /\ sig !! "macd" = Some (VStr BULLISH))
          \/ (sig !! "trend" = Some (VStr DOWNTREND)
              /\ sig !! "momentum" = Some (VStr OVERBOUGHT)
              /\ sig !! "macd" = Some (VStr BEARISH))).
Proof.
  intros [-> _]%generate_signals_returned.
  unfold signals_of, buy_votes_at, sell_votes_at.
  generalize (trend_class_at s) (rsi_class_at s) (macd_class_at s) (band_class_at s).
  intros t r m bnd.
  destruct (signals_dict_labels t r m bnd (buy_votes t r m) (sell_votes t r m))
    as (L1 & L2 & L3 & _).
  rewrite L1, L2, L3, signals_dict_recommendation, signals_dict_confidence.
  destruct (trend_label_inv t) as (T1 & T2 & T3).
  destruct (rsi_label_inv r) as (R1 & R2 & R3).
  destruct (macd_label_inv m) as (M1 & M2).
  rewrite T1, T2, T3, R1, R2, R3, M1, M2.
  destruct (three_way (Nat.ltb (sell_votes t r m) (buy_votes t r m))
              (Nat.ltb (buy_votes t r m) (sell_votes t r m)) BUY SELL HOLD)
    as (_ & _ & Hhold); try discriminate.
  { intros Hx%Nat.ltb_lt. apply Nat.ltb_ge. lia. }
  rewrite Hhold, confidence_full by (destruct t, r, m; cbn; lia).
  rewrite !Nat.ltb_ge.
  destruct t, r, m; cbn; split; intuition (first [lia | discriminate | done]).
Qed.

Local Ltac col_lookup :=
  cbn [columns nrows]; repeat (rewrite lookup_insert_ne by discriminate);
  first [ eassumption | apply lookup_insert_eq ].

Local Ltac aug_col :=
  unfold augmented, indicator_columns, frame_of_series; col_lookup.

Lemma latest_col s k col :
  columns (augmented s) !! k = Some col ->
  latest_row s !! k = Some (default nan (col !! (length s - 1)))
  /\ latest s k = default nan (col !! (length s - 1)).
Proof.
  intros E. unfold latest, latest_row, row_at. by rewrite lookup_fmap, E.
Qed.

Lemma last_field {A} (f : Bar -> A) (s : list Bar) (b : Bar) :
  last s = Some b -> (f <$> s) !! (length s - 1) = Some (f b).
Proof.
  intros Hb. rewrite last_lookup in Hb.
  rewrite list_lookup_fmap. replace (length s - 1) with (pred (length s)) by lia.
  by rewrite Hb.
Qed.

Lemma indicator_columns_dom c hi lo v m :
  dom (indicator_columns c hi lo v m) = indicator_names ∪ dom m.
Proof.
  unfold indicator_columns, indicator_names, indicator_list. rewrite !dom_insert_L.
  cbn [list_to_set foldr]. apply set_eq. intros k.
  rewrite !elem_of_union, !elem_of_singleton, elem_of_empty. tauto.
Qed.

Lemma indicator_columns_other c hi lo v m k :
  k ∉ indicator_names -> indicator_columns c hi lo v m !! k = m !! k.
Proof.
  unfold indicator_names. intros Hk.
  assert (forall k', k' ∈ indicator_list -> k' <> k) as Hne
    by (intros k' Hin ->; apply Hk; by apply elem_of_list_to_set).
  unfold indicator_columns.
  repeat (rewrite lookup_insert_ne by (apply Hne; unfold indicator_list; repeat constructor)).
  done.
Qed.

Lemma trend_info_price c s20 s50 s200 :
  trend_info_of c s20 s50 s200 !! "current_price" = Some (VNum c).
Proof.
  unfold trend_info_of.
  destruct (fgt c s20 && fgt s20 s50)%bool, (flt c s20 && flt s20 s50)%bool,
    (fgt s50 s200), (flt s50 s200);
    repeat (rewrite lookup_insert_ne by discriminate); apply lookup_insert_eq.
Qed.

Lemma volatility_info_price hv c u m lo a :
  volatility_info_of hv c u m lo a !! "current_price" = Some (VNum c).
Proof.
  unfold volatility_info_of.
  destruct (fgt c u), (flt c lo);
    repeat (rewrite lookup_insert_ne by discriminate); apply lookup_insert_eq.
Qed.

(** X5: the summary [get_summary] returns reports the last bar of the
    series: the current price of the trend and of the volatility
    dictionaries is its close, the latest data hold its five fields, and the
    latest data have the five input columns and the eighteen indicator
    columns as keys. *)
Theorem summary_reports_last_bar
    (h : gmap loc DataFrame) (l : loc) (s : list Bar) (b : Bar) (sm : Summary) :
  (get_summary (new_analyzer h l s)).1 = Ok sm -> last s = Some b ->
  sum_trend sm !! "current_price" = Some (VNum (bClose b))
  /\ sum_volatility sm !! "current_price" = Some (VNum (bClose b))
  /\ sum_latest_data sm !! "Open" = Some (bOpen b)
  /\ sum_latest_data sm !! "High" = Some (bHigh b)
  /\ sum_latest_data sm !! "Low" = Some (bLow b)
  /\ sum_latest_data sm !! "Close" = Some (bClose b)
  /\ sum_latest_data sm !! "Volume" = Some (bVolume b)
  /\ dom (sum_latest_data sm)
     = list_to_set ["Open"; "High"; "Low"; "Close"; "Volume"] ∪ indicator_names.
Proof.
  intros [-> _]%get_summary_returned Hb.
  unfold summary_of; cbn [sum_trend sum_volatility sum_latest_data].
  assert (columns (augmented s) !! "Open" = Some (bOpen <$> s)) as HO by aug_col.
  assert (columns (augmented s) !! "High" = Some (bHigh <$> s)) as HH by aug_col.
  assert (columns (augmented s) !! "Low" = Some (bLow <$> s)) as HL by aug_col.
  assert (columns (augmented s) !! "Close" = Some (bClose <$> s)) as HC by aug_col.
  assert (columns (augmented s) !! "Volume" = Some (bVolume <$> s)) as HV by aug_col.
  apply latest_col in HO as [HO _], HH as [HH _], HL as [HL _], HV as [HV _].
  apply latest_col in HC as [HC HC'].
  rewrite (last_field bOpen _ _ Hb) in HO. rewrite (last_field bHigh _ _ Hb) in HH.
  rewrite (last_field bLow _ _ Hb) in HL. rewrite (last_field bClose _ _ Hb) in HC, HC'.
  rewrite (last_field bVolume _ _ Hb) in HV. cbn [default] in *.
  unfold trend_of, volatility_of. rewrite trend_info_price, volatility_info_price, HC'.
  split_and!; try done.
Qed.

(** X10: when [get_summary] has returned, each analysis run on the same
    analyzer returns the corresponding part of the summary and leaves the
    state as it is. *)
Theorem analyses_after_summary
    (h : gmap loc DataFrame) (l : loc) (s : list Bar) (sm : Summary) (st : State) :
  get_summary (new_analyzer h l s) = (Ok sm, st) ->
  analyze_trend st = (Ok (sum_trend sm), st)
  /\ analyze_momentum st = (Ok (sum_momentum sm), st)
  /\ analyze_volatility st = (Ok (sum_volatility sm), st)
  /\ generate_signals st = (Ok (sum_signals sm), st)
  /\ signals st = sum_signals sm.
Proof.
  pose proof (new_analyzer_tracks h l s) as Ht.
  rewrite (get_summary_tracks s _ Ht). unfold summary_result, with_signals.
  destruct (Nat.leb_spec 14 (length s)) as [Hlen|Hlen]; [|done].
  rewrite (indicated_long _ _ Hlen). intros [= <- <-].
  set (st := mkState _ _ _).
  assert (heap st !! data st = Some (augmented s)) as Hd
    by (subst st; cbn [heap data]; apply lookup_insert_eq).
  rewrite (analyze_trend_aug _ _ Hd), (analyze_momentum_aug _ _ Hd),
    (analyze_volatility_aug _ _ Hd), (generate_signals_aug _ _ Hd) by lia.
  cbn [summary_of sum_trend sum_momentum sum_volatility sum_signals].
  by split_and!.
Qed.

(** X9: the trend analysis and the whole signal dictionary depend on the
    closing prices alone: two series with the same closes get the same
    outcome, whatever their open, high, low and volume. *)
Theorem signals_depend_on_close_only
    (h1 h2 : gmap loc DataFrame) (l1 l2 : loc) (s1 s2 : list Bar) :
  bClose <$> s1 = bClose <$> s2 ->
  (analyze_trend (new_analyzer h1 l1 s1)).1 = (analyze_trend (new_analyzer h2 l2 s2)).1
  /\ (generate_signals (new_analyzer h1 l1 s1)).1
     = (generate_signals (new_analyzer h2 l2 s2)).1.
Proof.
  intros Hc.
  assert (length s1 = length s2) as Hlen
    by (rewrite <- (length_fmap bClose s1), Hc; apply length_fmap).
  assert (forall k f, (forall s, columns (augmented s) !! k = Some (f (bClose <$> s))) ->
            latest s1 k = latest s2 k) as Hk.
  { intros k f Hf.
    rewrite (proj2 (latest_col s1 k _ (Hf s1))), (proj2 (latest_col s2 k _ (Hf s2))).
    by rewrite Hc, Hlen. }
  assert (latest s1 "Close" = latest s2 "Close") as E0
    by (apply (Hk _ (fun c => c)); intros s; aug_col).
  assert (latest s1 "SMA_20" = latest s2 "SMA_20") as E1
    by (apply (Hk _ (fun c => sma_indicator c 20)); intros s; aug_col).
  assert (latest s1 "SMA_50" = latest s2 "SMA_50") as E2
    by (apply (Hk _ (fun c => sma_indicator c 50)); intros s; aug_col).
  assert (latest s1 "SMA_200" = latest s2 "SMA_200") as E3
    by (apply (Hk _ (fun c => sma_indicator c 200)); intros s; aug_col).
  assert (latest s1 "RSI" = latest s2 "RSI") as E4
    by (apply (Hk _ (fun c => rsi c 14)); intros s; aug_col).
  assert (latest s1 "MACD" = latest s2 "MACD") as E5
    by (apply (Hk _ (fun c => macd c)); intros s; aug_col).
  assert (latest s1 "MACD_Signal" = latest s2 "MACD_Signal") as E6
    by (apply (Hk _ (fun c => macd_signal c)); intros s; aug_col).
  assert (latest s1 "BB_Upper" = latest s2 "BB_Upper") as E7
    by (apply (Hk _ (fun c => bollinger_hband c 20 2)); intros s; aug_col).
  assert (latest s1 "BB_Lower" = latest s2 "BB_Lower") as E8
    by (apply (Hk _ (fun c => bollinger_lband c 20 2)); intros s; aug_col).
  rewrite !analyze_trend_run, !generate_signals_run.
  unfold trend_result, signals_result, trend_of, signals_of, buy_votes_at,
    sell_votes_at, trend_class_at, rsi_class_at, macd_class_at, band_class_at.
  by rewrite Hlen, E0, E1, E2, E3, E4, E5, E6, E7, E8.
Qed.

Lemma frame_of_series_empty s : df_empty (frame_of_series s) = Nat.eqb (length s) 0.
Proof.
  unfold df_empty, frame_of_series; cbn [nrows columns].
  destruct (Nat.eqb (length s) 0); [done|]. cbn [orb].
  apply Nat.eqb_neq. intros Hz%map_size_empty_inv. by apply insert_non_empty in Hz.
Qed.

(** X13: the callers' guard [data.empty] rejects exactly the empty series;
    among the series it lets through, [get_summary] raises [IndexError]
    exactly on those of fewer than 14 bars. *)
Theorem nonempty_guard_admits_short_series
    (h : gmap loc DataFrame) (l : loc) (s : list Bar) :
  (df_empty (frame_of_series s) = true <-> s = [])
  /\ (df_empty (frame_of_series s) = false ->
      ((get_summary (new_analyzer h l s)).1 = Raise IndexError <-> length s < 14)).
Proof.
  rewrite frame_of_series_empty, get_summary_run. unfold summary_result. split.
  - destruct s; cbn; split; intros Hx; done || discriminate Hx.
  - intros Hne%Nat.eqb_neq.
    destruct (Nat.leb_spec 14 (length s)); split; intros Hx; try done; lia.
Qed.

(** X7: on a frame that has the close, high, low and volume columns and at
    least 14 rows of closes, [add_technical_indicators] returns the reference
    of a new object, which becomes [self.data]; no existing object is
    touched; the new frame has the same number of rows, the eighteen
    indicator columns added to the columns it had, and every other column as
    it was. *)
Theorem add_technical_indicators_effect
    (st : State) (fr : DataFrame) (c hi lo v : list float) :
  heap st !! data st = Some fr ->
  columns fr !! "Close" = Some c ->
  columns fr !! "High" = Some hi ->
  columns fr !! "Low" = Some lo ->
  columns fr !! "Volume" = Some v ->
  14 <= length c ->
  exists (l' : loc) (fr' : DataFrame),
    add_technical_indicators st
    = (Ok l', mkState (<[l' := fr']> (heap st)) l' (signals st))
    /\ heap st !! l' = None
    /\ nrows fr' = nrows fr
    /\ dom (columns fr') = indicator_names ∪ dom (columns fr)
    /\ (forall k, k ∉ indicator_names -> columns fr' !! k = columns fr !! k).
Proof.
  intros Hd Hc Hh Hl Hv Hlen.
  exists (fresh (dom (heap st))),
    (mkDF (nrows fr) (indicator_columns c hi lo v (columns fr))).
  split_and!.
  - by apply add_technical_indicators_run.
  - apply not_elem_of_dom, is_fresh.
  - done.
  - apply indicator_columns_dom.
  - intros k Hk. by apply indicator_columns_other.
Qed.

Lemma getcol_missing h l d sg k fr :
  h !! l = Some fr -> columns fr !! k = None ->
  getcol l k (mkState h d sg) = (Raise (KeyError k), mkState h d sg).
Proof.
  intros Hl Hk. unfold getcol, deref, mbind, M_bind, bind; cbn [heap].
  rewrite (lookup_total_correct _ _ _ Hl), Hk. done.
Qed.

Local Ltac mstep :=
  first
    [ erewrite bind_run by (eapply getcol_run; [apply lookup_insert_eq | col_lookup])
    | erewrite bind_run by (apply setcol_run) ].

Local Ltac mfail :=
  erewrite bind_raise
    by (eapply getcol_missing;
        [ apply lookup_insert_eq
        | cbn [columns]; repeat (rewrite lookup_insert_ne by discriminate); eassumption ]).

(** X8: when one of the columns Close, High, Low, Volume is missing,
    [add_technical_indicators] raises, and so does [get_summary]: [KeyError]
    with the name of the first missing one in that order, except that a
    frame lacking only Volume and holding fewer than 14 closes raises the
    [IndexError] of the average true range, which is asked for before Volume
    is read.  [self.data] and [self.signals] are unchanged and no existing
    object is touched. *)
Theorem missing_column_key_error (st : State) (fr : DataFrame) (i : nat) (k : string) :
  heap st !! data st = Some fr ->
  list_find (fun k => ~ is_Some (columns fr !! k)) required_columns = Some (i, k) ->
  let short :=
    match columns fr !! "Close" with
    | Some c => Nat.ltb (length c) 14
    | None => false
    end in
  let e := if (String.eqb k "Volume" && short)%bool then IndexError else KeyError k in
  exists st' : State,
    add_technical_indicators st = (Raise e, st')
    /\ get_summary st = (Raise e, st')
    /\ data st' = data st
    /\ signals st' = signals st
    /\ heap st ⊆ heap st'.
Proof.
  intros Hd Hfind. destruct st as [h d sg]; cbn [heap data signals] in *.
  destruct fr as [n cols]; cbn [columns] in *.
  assert (forall fr', h ⊆ <[fresh (dom h) := fr']> h) as Hsub
    by (intros fr'; apply insert_subseteq, not_elem_of_dom, is_fresh).
  assert (forall e st', add_technical_indicators (mkState h d sg) = (Raise e, st') ->
            get_summary (mkState h d sg) = (Raise e, st')) as Hsum
    by (intros e st' E; unfold get_summary; by erewrite bind_raise by exact E).
  assert (forall k', ~ is_Some (cols !! k') -> cols !! k' = None) as Hnone
    by (intros k' Hk'; by apply eq_None_not_Some).
  unfold required_columns in Hfind. cbn [list_find] in Hfind.
  set (l' := fresh (dom h)) in *.
  pose proof (copy_run h d sg _ Hd) as Hcopy. fold l' in Hcopy.
  repeat case_decide; cbn in Hfind; simplify_eq.
  all: repeat match goal with
    | Hn : ~ ~ is_Some _ |- _ => apply dec_stable in Hn
    | Hn : is_Some _ |- _ => destruct Hn as [? ?]
    | Hn : ~ is_Some _ |- _ => apply Hnone in Hn
    end.
  all: cbv zeta.
  all: try match goal with Hc : _ !! "Close" = _ |- _ => rewrite Hc end.
  all: match goal with
       | |- context [String.eqb ?a ?b] =>
           let v := eval vm_compute in (String.eqb a b) in
           change (String.eqb a b) with v
       end; cbn [andb].
  all: try match goal with
    | |- context [Nat.ltb (length ?c) 14] =>
        destruct (Nat.ltb_spec (length c) 14) as [Hlen|Hlen]
    end.
  all: match goal with
       | |- exists st', _ = (Raise ?e, st') /\ _ =>
           assert (exists fr', add_technical_indicators (mkState h d sg)
                     = (Raise e, mkState (<[l' := fr']> h) d sg)) as [fr' E]
       end.
  all: try (eexists; unfold add_technical_indicators;
            erewrite bind_run by reflexivity;
            erewrite bind_run by exact Hcopy;
            repeat mstep;
            first [ mfail
                  | erewrite bind_raise by (apply AverageTrueRange_raise, Hlen)
                  | erewrite bind_run by (apply AverageTrueRange_run, Hlen);
                    repeat mstep; mfail ];
            reflexivity).
  all: eexists; split_and!; [exact E | apply Hsum, E | done | done | apply Hsub].
Qed.

(** X11: the test for the SMA_20 column stands for all indicator columns:
    on a frame of at least two rows that has Close and SMA_20 but no SMA_50,
    [analyze_trend] computes nothing, raises [KeyError] for SMA_50 and leaves
    the state as it is. *)
Theorem partial_indicator_frame_key_error (st : State) (fr : DataFrame) :
  heap st !! data st = Some fr ->
  2 <= nrows fr ->
  is_Some (columns fr !! "Close") ->
  is_Some (columns fr !! "SMA_20") ->
  columns fr !! "SMA_50" = None ->
  analyze_trend st = (Raise (KeyError "SMA_50"), st).
Proof.
  intros Hd Hn [c Hc] [s20 H20] H50. unfold analyze_trend.
  erewrite bind_run; cycle 1.
  { unfold ensure_indicators.
    erewrite bind_run by reflexivity.
    erewrite bind_run by (apply has_column_run, Hd).
    rewrite H20, bool_decide_eq_true_2 by eauto. reflexivity. }
  erewrite bind_run by reflexivity.
  pose proof (iloc_last _ _ Hd) as Hl. pose proof (iloc_prev _ _ Hd) as Hp.
  destruct (leb_2_1 _ Hn) as [E2 E1]. rewrite E1 in Hl. rewrite E2 in Hp.
  erewrite bind_run by exact Hl.
  erewrite bind_run by reflexivity.
  erewrite bind_run by exact Hp.
  erewrite bind_run
    by (apply getitem_run; unfold row_at; rewrite lookup_fmap, Hc; reflexivity).
  erewrite bind_run
    by (apply getitem_run; unfold row_at; rewrite lookup_fmap, H20; reflexivity).
  erewrite bind_raise; [reflexivity|].
  unfold getitem, row_at. by rewrite lookup_fmap, H50.
Qed.
End MoreAnalyzer.

(** * The data source *)

Section FetcherFacts.
Import Fetcher.
Context {W : Type}.
Variable history : string -> string -> W -> Outcome DataFrame * W.

Lemma get_stock_data_inv ticker period io df io' :
  get_stock_data history ticker period io = (Some df, io') ->
  df_empty df = false
  /\ history ticker period (world io) = (Returned df, world io')
  /\ stdout io' = stdout io.
Proof.
  unfold get_stock_data.
  destruct (history ticker period (world io)) as [[df'|e] w].
  - destruct (df_empty df') eqn:E; intros Hx; simplify_eq. done.
  - intros Hx; simplify_eq.
Qed.

(** X14: every entry of the dictionary [get_multiple_stocks] returns is for
    one of the requested tickers and holds a frame that is not empty. *)
Theorem get_multiple_stocks_sound
    (tickers : list string) (period : string) (io : IO W)
    (t : string) (df : DataFrame) :
  (get_multiple_stocks history tickers period io).1 !! t = Some df ->
  t ∈ tickers /\ df_empty df = false.
Proof.
  unfold get_multiple_stocks.
  assert (forall acc : gmap string DataFrame * IO W,
            (foldl (fun acc ticker =>
                      match get_stock_data history ticker period acc.2 with
                      | (Some data, io') => (<[ticker := data]> acc.1, io')
                      | (None, io') => (acc.1, io')
                      end) acc tickers).1 !! t = Some df ->
            acc.1 !! t = Some df \/ (t ∈ tickers /\ df_empty df = false)) as Hgen.
  { induction tickers as [|x tickers IH]; intros acc; cbn [foldl].
    - by left.
    - intros Hx. apply IH in Hx as [Hx|[Hin He]]; [|right; split; [by right|done]].
      destruct (get_stock_data history x period acc.2) as [[data|] io'] eqn:E;
        cbn [fst] in Hx; [|by left].
      destruct (decide (x = t)) as [->|Hne].
      + rewrite lookup_insert_eq in Hx. simplify_eq.
        right. split; [by left|]. by apply get_stock_data_inv in E as [? _].
      + rewrite lookup_insert_ne in Hx by done. by left. }
  intros Hx. apply Hgen in Hx as [Hx|Hx]; [|done]. cbn [fst] in Hx.
  by rewrite lookup_empty in Hx.
Qed.

Lemma get_multiple_stocks_cons x tickers period io :
  get_multiple_stocks history (tickers ++ [x]) period io
  = let acc := get_multiple_stocks history tickers period io in
    match get_stock_data history x period acc.2 with
    | (Some data, io') => (<[x := data]> acc.1, io')
    | (None, io') => (acc.1, io')
    end.
Proof. unfold get_multiple_stocks. by rewrite foldl_app. Qed.

(** X15: for a provider whose answer depends on the ticker alone,
    [get_multiple_stocks] holds a frame for a ticker exactly when the ticker
    was requested and the provider returned that frame and it is not empty;
    tickers whose fetch fails or comes back empty are left out. *)
Theorem get_multiple_stocks_stateless
    (answer : string -> Outcome DataFrame)
    (tickers : list string) (period : string) (io : IO W)
    (t : string) (df : DataFrame) :
  (forall ticker w, history ticker period w = (answer ticker, w)) ->
  (get_multiple_stocks history tickers period io).1 !! t = Some df
  <-> t ∈ tickers /\ answer t = Returned df /\ df_empty df = false.
Proof.
  intros Hpure.
  induction tickers as [|x tickers IH] using rev_ind.
  - cbn. rewrite lookup_empty. split; [done|]. intros [Hin _]. by apply elem_of_nil in Hin.
  - rewrite get_multiple_stocks_cons. cbn zeta.
    set (acc := get_multiple_stocks history tickers period io) in *.
    unfold get_stock_data. rewrite Hpure.
    rewrite elem_of_app, list_elem_of_singleton.
    destruct (answer x) as [dx|e] eqn:Ex.
    + destruct (df_empty dx) eqn:Ee; cbn [fst].
      * rewrite IH. split; [intros (? & ? & ?); by split_and!; [left|..]|].
        intros ([Hin| ->] & Ha & He); [done|]. rewrite Ex in Ha. simplify_eq.
        congruence.
      * destruct (decide (x = t)) as [->|Hne].
        -- rewrite lookup_insert_eq. split.
           ++ intros Hx; simplify_eq. by split_and!; [right|..].
           ++ intros (_ & Ha & _). rewrite Ex in Ha. by simplify_eq.
        -- rewrite lookup_insert_ne by done. rewrite IH.
           split; [intros (? & ? & ?); by split_and!; [left|..]|].
           intros ([Hin| ->] & Ha & He); done.
    + cbn [fst]. rewrite IH. split; [intros (? & ? & ?); by split_and!; [left|..]|].
      intros ([Hin| ->] & Ha & He); [done|]. rewrite Ex in Ha. by simplify_eq.
Qed.

Variable info_of : string -> W -> Outcome (gmap string PyVal) * W.

(** X16: when the provider returns an info dictionary, whatever it holds,
    [get_stock_info] returns the fourteen key metrics, each key present: the
    symbol falls back to the ticker, the market capitalisation to 0 and the
    current price to [None]; it returns [None] only when the provider
    raised. *)
Theorem get_stock_info_keys (ticker : string) (io : IO W) :
  match (get_stock_info info_of ticker io).1 with
  | Some km =>
      dom km = list_to_set ["symbol"; "name"; "sector"; "industry"; "market_cap";
                            "pe_ratio"; "forward_pe"; "dividend_yield"; "beta";
                            "52_week_high"; "52_week_low"; "current_price";
                            "target_price"; "recommendation"]
      /\ exists info,
          (info_of ticker (world io)).1 = Returned info
          /\ km !! "symbol" = Some (default (PStr ticker) (info !! "symbol"))
          /\ km !! "market_cap" = Some (default (PInt 0) (info !! "marketCap"))
          /\ km !! "current_price" = Some (default PNone (info !! "currentPrice"))
  | None => exists e, (info_of ticker (world io)).1 = Failed e
  end.
Proof.
  unfold get_stock_info.
  destruct (info_of ticker (world io)) as [[info|e] w]; cbn [fst]; [|by eexists].
  split.
  - unfold key_metrics. rewrite !dom_insert_L, dom_empty_L.
    cbn [list_to_set foldr]. apply set_eq. intros k.
    rewrite !elem_of_union, !elem_of_singleton, elem_of_empty. tauto.
  - exists info. unfold key_metrics, dict_get_default.
    split_and!; [done|..];
      repeat (rewrite lookup_insert_ne by discriminate); apply lookup_insert_eq.
Qed.
End FetcherFacts.

(** * Tickers from a worksheet *)

Section SheetsFacts.
Import Sheets.

Lemma upper_ascii_idem a : upper_ascii (upper_ascii a) = upper_ascii a.
Proof. by destruct a as [[] [] [] [] [] [] [] []]. Qed.

Lemma is_space_upper a : is_space (upper_ascii a) = is_space a.
Proof. by destruct a as [[] [] [] [] [] [] [] []]. Qed.

Lemma upper_idem s : upper (upper s) = upper s.
Proof. induction s as [|a s IH]; cbn; [done|]. by rewrite upper_ascii_idem, IH. Qed.

Lemma upper_empty s : upper s = EmptyString <-> s = EmptyString.
Proof. by destruct s. Qed.

Lemma lstrip_upper s : lstrip (upper s) = upper (lstrip s).
Proof.
  induction s as [|a s IH]; cbn; [done|].
  rewrite is_space_upper. by destruct (is_space a).
Qed.

Lemma rstrip_upper s : rstrip (upper s) = upper (rstrip s).
Proof.
  induction s as [|a s IH]; cbn; [done|].
  rewrite IH, is_space_upper.
  destruct (rstrip s) as [|b r]; cbn; [by destruct (is_space a)|done].
Qed.

Lemma strip_upper s : strip (upper s) = upper (strip s).
Proof. unfold strip. by rewrite lstrip_upper, rstrip_upper. Qed.

Lemma lstrip_trimmed s : trimmed_left (lstrip s).
Proof.
  induction s as [|a s IH]; cbn; [done|].
  destruct (is_space a) eqn:E; [done|]. by cbn.
Qed.

Lemma lstrip_id s : trimmed_left s -> lstrip s = s.
Proof. destruct s as [|a s]; cbn; [done|]. by intros ->. Qed.

Lemma rstrip_trimmed s : trimmed_left s -> trimmed_left (rstrip s).
Proof.
  destruct s as [|a s]; cbn; [done|]. intros Ha. rewrite Ha.
  by destruct (rstrip s).
Qed.

Lemma rstrip_idem s : rstrip (rstrip s) = rstrip s.
Proof.
  induction s as [|a s IH]; cbn; [done|].
  destruct (rstrip s) as [|b r] eqn:E.
  - destruct (is_space a) eqn:Ea; cbn; [done|]. by rewrite Ea.
  - cbn [rstrip]. cbn [rstrip] in IH. by rewrite IH.
Qed.

Lemma strip_idem s : strip (strip s) = strip s.
Proof.
  unfold strip.
  rewrite (lstrip_id (rstrip (lstrip s))) by apply rstrip_trimmed, lstrip_trimmed.
  apply rstrip_idem.
Qed.

Lemma elem_of_unique l x : x ∈ unique l <-> x ∈ l.
Proof.
  induction l as [|y l IH]; cbn; [done|].
  rewrite !elem_of_cons, list_elem_of_filter, IH.
  destruct (decide (x = y)) as [->|Hne]; [split; by left|].
  split.
  - intros [?|[_ ?]]; [by left | by right].
  - intros [?|?]; [by left | right; by split].
Qed.

Lemma NoDup_unique l : NoDup (unique l).
Proof.
  induction l as [|y l IH]; cbn; [constructor|].
  constructor; [|by apply NoDup_filter].
  rewrite list_elem_of_filter. by intros [Hne _].
Qed.

Lemma elem_of_dropna_cells col x : x ∈ dropna_cells col <-> Some x ∈ col.
Proof.
  unfold dropna_cells. rewrite list_elem_of_omap. split.
  - intros ([y|] & Hin & Hy); cbn in Hy; [|discriminate Hy].
    by injection Hy as ->.
  - intros Hin. by exists (Some x).
Qed.

Lemma get_tickers_inv
    (df : option (gmap string (list (option string)))) (ticker_column t : string) :
  t ∈ get_tickers_from_sheet df ticker_column ->
  exists cell, strip cell <> EmptyString /\ t = upper (strip cell).
Proof.
  unfold get_tickers_from_sheet.
  destruct df as [table|]; [|by intros ?%elem_of_nil].
  destruct (table !! ticker_column) as [col|]; [|by intros ?%elem_of_nil].
  intros (c & -> & [Hne _]%list_elem_of_filter)%list_elem_of_fmap. by exists c.
Qed.

(** X17: a ticker is returned by [get_tickers_from_sheet] exactly when the
    sheet was read, has the ticker column, and some text cell of the column
    that is not blank has that ticker as its stripped upper-case form; an
    unread sheet or a missing column gives no ticker. *)
Theorem tickers_come_from_cells
    (df : option (gmap string (list (option string)))) (ticker_column t : string) :
  t ∈ get_tickers_from_sheet df ticker_column
  <-> exists table col cell,
        df = Some table /\ table !! ticker_column = Some col
        /\ Some cell ∈ col /\ strip cell <> EmptyString /\ t = upper (strip cell).
Proof.
  unfold get_tickers_from_sheet. destruct df as [table|].
  - destruct (table !! ticker_column) as [col|] eqn:Ecol.
    + rewrite list_elem_of_fmap. split.
      * intros (c & -> & Hc). apply list_elem_of_filter in Hc as [Hne Hc].
        apply elem_of_unique, elem_of_dropna_cells in Hc. by exists table, col, c.
      * intros (table' & col' & c & ? & ? & Hc & Hne & ->). simplify_eq.
        exists c. split; [done|]. apply list_elem_of_filter. split; [done|].
        by apply elem_of_unique, elem_of_dropna_cells.
    + split; [by intros ?%elem_of_nil|]. intros (? & ? & ? & ? & ? & _). by simplify_eq.
  - split; [by intros ?%elem_of_nil|]. by intros (? & ? & ? & ? & _).
Qed.

(** X18: every returned ticker is non-empty, has no white space at either
    end and no lower-case letter. *)
Theorem tickers_are_normalised
    (df : option (gmap string (list (option string)))) (ticker_column t : string) :
  t ∈ get_tickers_from_sheet df ticker_column ->
  t <> EmptyString /\ strip t = t /\ upper t = t.
Proof.
  intros (c & Hne & ->)%get_tickers_inv.
  split_and!.
  - by rewrite upper_empty.
  - by rewrite strip_upper, strip_idem.
  - apply upper_idem.
Qed.

(** X19: duplicates are removed before the cells are stripped and
    upper-cased, not after: two different cells with the same non-blank
    normal form make the returned list repeat a ticker. *)
Theorem tickers_can_repeat
    (table : gmap string (list (option string))) (ticker_column : string)
    (col : list (option string)) (a b : string) :
  table !! ticker_column = Some col ->
  Some a ∈ col -> Some b ∈ col -> a <> b ->
  strip a <> EmptyString -> upper (strip a) = upper (strip b) ->
  ~ NoDup (get_tickers_from_sheet (Some table) ticker_column).
Proof.
  intros Hcol Ha Hb Hab Hne Heq Hnd.
  unfold get_tickers_from_sheet in Hnd. rewrite Hcol in Hnd. cbn zeta in Hnd.
  set (cells := filter (fun t => strip t <> EmptyString)
                       (unique (dropna_cells col))) in *.
  assert (strip b <> EmptyString) as Hne'.
  { intros Hb'. rewrite Hb' in Heq. cbn [upper] in Heq.
    by apply (proj1 (upper_empty (strip a))) in Heq. }
  assert (a ∈ cells) as Ha'
    by (apply list_elem_of_filter; split; [done|];
        by apply elem_of_unique, elem_of_dropna_cells).
  assert (b ∈ cells) as Hb'
    by (apply list_elem_of_filter; split; [done|];
        by apply elem_of_unique, elem_of_dropna_cells).
  apply list_elem_of_lookup in Ha' as [i Hi]. apply list_elem_of_lookup in Hb' as [j Hj].
  assert (i = j) as ->.
  { apply (NoDup_lookup _ i j (upper (strip a)) Hnd).
    - by rewrite list_lookup_fmap, Hi.
    - by rewrite list_lookup_fmap, Hj, Heq. }
  congruence.
Qed.
End SheetsFacts.

(** * Further sample runs *)

Section MoreSamples.
Import SpecTA.

#[local] Existing Instance SpecTA.lib.

Lemma short_term_trend_rule_witness :
  let s := falling 40 in
  let t := trend_of s in
  (analyze_trend (new_analyzer ∅ 1%positive s)).1 = Ok t
  /\ (t !! "short_term_trend" = Some (VStr UPTREND)
      <-> fgt (latest s "Close") (latest s "SMA_20") = true
          /\ fgt (latest s "SMA_20") (latest s "SMA_50") = true)
  /\ (t !! "short_term_trend" = Some (VStr DOWNTREND)
      <-> flt (latest s "Close") (latest s "SMA_20") = true
          /\ flt (latest s "SMA_20") (latest s "SMA_50") = true)
  /\ (t !! "short_term_trend" = Some (VStr SIDEWAYS)
      <-> ~ (fgt (latest s "Close") (latest s "SMA_20") = true
             /\ fgt (latest s "SMA_20") (latest s "SMA_50") = true)
          /\ ~ (flt (latest s "Close") (latest s "SMA_20") = true
                /\ flt (latest s "SMA_20") (latest s "SMA_50") = true)).
Proof.
  intros s t.
  assert ((analyze_trend (new_analyzer ∅ 1%positive s)).1 = Ok t) as Hr
    by (vm_compute; reflexivity).
  split; [exact Hr|].
  exact (short_term_trend_rule ∅ 1%positive s t Hr).
Defined.

Lemma long_term_trend_rule_witness :
  let s := rising 201 in
  let t := trend_of s in
  (analyze_trend (new_analyzer ∅ 1%positive s)).1 = Ok t
  /\ (t !! "long_term_trend" = Some (VStr GOLDEN_CROSS)
      <-> fgt (latest s "SMA_50") (latest s "SMA_200") = true)
  /\ (t !! "long_term_trend" = Some (VStr DEATH_CROSS)
      <-> flt (latest s "SMA_50") (latest s "SMA_200") = true)
  /\ (t !! "long_term_trend" = Some (VStr NEUTRAL_TREND)
      <-> fgt (latest s "SMA_50") (latest s "SMA_200") = false
          /\ flt (latest s "SMA_50") (latest s "SMA_200") = false)
  /\ (PrimFloat.eqb (latest s "SMA_50") (latest s "SMA_200") = true ->
      t !! "long_term_trend" = Some (VStr NEUTRAL_TREND)).
Proof.
  intros s t.
  assert ((analyze_trend (new_analyzer ∅ 1%positive s)).1 = Ok t) as Hr
    by (vm_compute; reflexivity).
  split; [exact Hr|].
  exact (long_term_trend_rule ∅ 1%positive s t Hr).
Defined.

Lemma oscillator_thresholds_witness :
  let s := falling 40 in
  let m := momentum_of s in
  (analyze_momentum (new_analyzer ∅ 1%positive s)).1 = Ok m
  /\ (m !! "rsi_signal" = Some (VStr OVERBOUGHT) <-> fgt (latest s "RSI") 70%float = true)
  /\ (m !! "rsi_signal" = Some (VStr OVERSOLD) <-> flt (latest s "RSI") 30%float = true)
  /\ (m !! "rsi_signal" = Some (VStr NEUTRAL)
      <-> fgt (latest s "RSI") 70%float = false /\ flt (latest s "RSI") 30%float = false)
  /\ (m !! "stoch_signal" = Some (VStr OVERBOUGHT)
      <-> fgt (latest s "Stoch_K") 80%float = true)
  /\ (m !! "stoch_signal" = Some (VStr OVERSOLD)
      <-> flt (latest s "Stoch_K") 20%float = true)
  /\ (m !! "stoch_signal" = Some (VStr NEUTRAL)
      <-> fgt (latest s "Stoch_K") 80%float = false
          /\ flt (latest s "Stoch_K") 20%float = false).
Proof.
  intros s m.
  assert ((analyze_momentum (new_analyzer ∅ 1%positive s)).1 = Ok m) as Hr
    by (vm_compute; reflexivity).
  split; [exact Hr|].
  exact (oscillator_thresholds ∅ 1%positive s m Hr).
Defined.

Lemma momentum_macd_signal_is_label_witness :
  let s := rising 30 in
  let m := momentum_of s in
  (analyze_momentum (new_analyzer ∅ 1%positive s)).1 = Ok m
  /\ dom m = list_to_set ["rsi"; "macd"; "macd_signal"; "stoch_k"; "stoch_d";
                          "rsi_signal"; "stoch_signal"]
  /\ m !! "macd" = Some (VNum (latest s "MACD"))
  /\ (m !! "macd_signal" = Some (VStr BULLISH)
      \/ m !! "macd_signal" = Some (VStr BEARISH)).
Proof.
  intros s m.
  assert ((analyze_momentum (new_analyzer ∅ 1%positive s)).1 = Ok m) as Hr
    by (vm_compute; reflexivity).
  split; [exact Hr|].
  exact (momentum_macd_signal_is_label ∅ 1%positive s m Hr).
Defined.

Lemma summary_reports_last_bar_witness :
  let s := rising 30 in
  let sm := summary_of s in
  let b := bar_at 129 in
  (get_summary (new_analyzer ∅ 1%positive s)).1 = Ok sm
  /\ last s = Some b
  /\ sum_trend sm !! "current_price" = Some (VNum (bClose b))
  /\ sum_volatility sm !! "current_price" = Some (VNum (bClose b))
  /\ sum_latest_data sm !! "Open" = Some (bOpen b)
  /\ sum_latest_data sm !! "High" = Some (bHigh b)
  /\ sum_latest_data sm !! "Low" = Some (bLow b)
  /\ sum_latest_data sm !! "Close" = Some (bClose b)
  /\ sum_latest_data sm !! "Volume" = Some (bVolume b)
  /\ dom (sum_latest_data sm)
     = list_to_set ["Open"; "High"; "Low"; "Close"; "Volume"] ∪ indicator_names.
Proof.
  intros s sm b.
  assert ((get_summary (new_analyzer ∅ 1%positive s)).1 = Ok sm) as Hr
    by (vm_compute; reflexivity).
  assert (last s = Some b) as Hb by (vm_compute; reflexivity).
  split; [exact Hr|]. split; [exact Hb|].
  exact (summary_reports_last_bar ∅ 1%positive s b sm Hr Hb).
Defined.

Lemma add_technical_indicators_effect_witness :
  let st := new_analyzer ∅ 1%positive (rising 20) in
  let fr := frame_of_series (rising 20) in
  heap st !! data st = Some fr
  /\ columns fr !! "Close" = Some (bClose <$> rising 20)
  /\ columns fr !! "High" = Some (bHigh <$> rising 20)
  /\ columns fr !! "Low" = Some (bLow <$> rising 20)
  /\ columns fr !! "Volume" = Some (bVolume <$> rising 20)
  /\ 14 <= length (bClose <$> rising 20)
  /\ exists (l' : loc) (fr' : DataFrame),
      add_technical_indicators st
      = (Ok l', mkState (<[l' := fr']> (heap st)) l' (signals st))
      /\ heap st !! l' = None
      /\ nrows fr' = nrows fr
      /\ dom (columns fr') = indicator_names ∪ dom (columns fr)
      /\ (forall k, k ∉ indicator_names -> columns fr' !! k = columns fr !! k).
Proof.
  intros st fr.
  assert (heap st !! data st = Some fr) as Hd by (vm_compute; reflexivity).
  assert (columns fr !! "Close" = Some (bClose <$> rising 20)) as Hc
    by (vm_compute; reflexivity).
  assert (columns fr !! "High" = Some (bHigh <$> rising 20)) as Hh
    by (vm_compute; reflexivity).
  assert (columns fr !! "Low" = Some (bLow <$> rising 20)) as Hl
    by (vm_compute; reflexivity).
  assert (columns fr !! "Volume" = Some (bVolume <$> rising 20)) as Hv
    by (vm_compute; reflexivity).
  assert (14 <= length (bClose <$> rising 20)) as Hlen by (vm_compute; lia).
  split_and!; try assumption.
  exact (add_technical_indicators_effect st fr _ _ _ _ Hd Hc Hh Hl Hv Hlen).
Defined.

(** A frame with a close column only, and one with a stale SMA_20 column. *)
Lemma missing_column_key_error_witness :
  let fr := mkDF 2 {["Close" := [1%float; 2%float]]} in
  let st := mkState {[1%positive := fr]} 1%positive ∅ in
  heap st !! data st = Some fr
  /\ list_find (fun k => ~ is_Some (columns fr !! k)) required_columns = Some (1, "High")
  /\ exists st' : State,
      add_technical_indicators st = (Raise (KeyError "High"), st')
      /\ get_summary st = (Raise (KeyError "High"), st')
      /\ data st' = data st
      /\ signals st' = signals st
      /\ heap st ⊆ heap st'.
Proof.
  intros fr st.
  assert (heap st !! data st = Some fr) as Hd by (vm_compute; reflexivity).
  assert (list_find (fun k => ~ is_Some (columns fr !! k)) required_columns
          = Some (1, "High")) as Hf by (vm_compute; reflexivity).
  split_and!; try assumption.
  exact (missing_column_key_error st fr 1 "High" Hd Hf).
Defined.

Lemma signals_depend_on_close_only_witness :
  let s1 := rising 30 in
  let s2 := (fun b => mkBar 1%float 500%float 1%float (bClose b) 7%float) <$> rising 30 in
  bClose <$> s1 = bClose <$> s2
  /\ (analyze_trend (new_analyzer ∅ 1%positive s1)).1
     = (analyze_trend (new_analyzer ∅ 2%positive s2)).1
  /\ (generate_signals (new_analyzer ∅ 1%positive s1)).1
     = (generate_signals (new_analyzer ∅ 2%positive s2)).1.
Proof.
  intros s1 s2.
  assert (bClose <$> s1 = bClose <$> s2) as Hc by (vm_compute; reflexivity).
  split; [exact Hc|].
  exact (signals_depend_on_close_only ∅ ∅ 1%positive 2%positive s1 s2 Hc).
Defined.

Lemma analyses_after_summary_witness :
  let s := rising 30 in
  let sm := summary_of s in
  let st := (get_summary (new_analyzer ∅ 1%positive s)).2 in
  get_summary (new_analyzer ∅ 1%positive s) = (Ok sm, st)
  /\ analyze_trend st = (Ok (sum_trend sm), st)
  /\ analyze_momentum st = (Ok (sum_momentum sm), st)
  /\ analyze_volatility st = (Ok (sum_volatility sm), st)
  /\ generate_signals st = (Ok (sum_signals sm), st)
  /\ signals st = sum_signals sm.
Proof.
  intros s sm st.
  assert (get_summary (new_analyzer ∅ 1%positive s) = (Ok sm, st)) as Hr
    by (vm_compute; reflexivity).
  split; [exact Hr|].
  exact (analyses_after_summary ∅ 1%positive s sm st Hr).
Defined.

Lemma partial_indicator_frame_key_error_witness :
  let fr := mkDF 2 (<["SMA_20" := [1%float; 2%float]]> {["Close" := [1%float; 2%float]]}) in
  let st := mkState {[1%positive := fr]} 1%positive ∅ in
  heap st !! data st = Some fr
  /\ 2 <= nrows fr
  /\ is_Some (columns fr !! "Close")
  /\ is_Some (columns fr !! "SMA_20")
  /\ columns fr !! "SMA_50" = None
  /\ analyze_trend st = (Raise (KeyError "SMA_50"), st).
Proof.
  intros fr st.
  assert (heap st !! data st = Some fr) as Hd by (vm_compute; reflexivity).
  assert (2 <= nrows fr) as Hn by (vm_compute; lia).
  assert (is_Some (columns fr !! "Close")) as Hc by (eexists; vm_compute; reflexivity).
  assert (is_Some (columns fr !! "SMA_20")) as H20 by (eexists; vm_compute; reflexivity).
  assert (columns fr !! "SMA_50" = None) as H50 by (vm_compute; reflexivity).
  split_and!; try assumption.
  exact (partial_indicator_frame_key_error st fr Hd Hn Hc H20 H50).
Defined.

Lemma hold_and_full_confidence_witness :
  let s := falling 201 in
  let sig := signals_of s in
  (generate_signals (new_analyzer ∅ 1%positive s)).1 = Ok sig
  /\ (sig !! "recommendation" = Some (VStr HOLD)
      <-> (sig !! "macd" = Some (VStr BULLISH)
           /\ ((sig !! "trend" = Some (VStr DOWNTREND)
                /\ sig !! "momentum" = Some (VStr NEUTRAL))
               \/ (sig !! "trend" = Some (VStr SIDEWAYS)
                   /\ sig !! "momentum" = Some (VStr OVERBOUGHT))))
          \/ (sig !! "macd" = Some (VStr BEARISH)
              /\ ((sig !! "trend" = Some (VStr UPTREND)
                   /\ sig !! "momentum" = Some (VStr NEUTRAL))
                  \/ (sig !! "trend" = Some (VStr SIDEWAYS)
                      /\ sig !! "momentum" = Some (VStr OVERSOLD)))))
  /\ (sig !! "confidence" = Some (VStr "3/3")
      <-> (sig !! "trend" = Some (VStr UPTREND)
           /\ sig !! "momentum" = Some (VStr OVERSOLD)
           /\ sig !! "macd" = Some (VStr BULLISH))
          \/ (sig !! "trend" = Some (VStr DOWNTREND)
              /\ sig !! "momentum" = Some (VStr OVERBOUGHT)
              /\ sig !! "macd" = Some (VStr BEARISH))).
Proof.
  intros s sig.
  assert ((generate_signals (new_analyzer ∅ 1%positive s)).1 = Ok sig) as Hr
    by (vm_compute; reflexivity).
  split; [exact Hr|].
  exact (hold_and_full_confidence ∅ 1%positive s sig Hr).
Defined.

(** A frame of two rows without Volume stops at the average true range; the
    same frame with fourteen rows gets as far as the missing column. *)
Example volume_missing_short_and_long :
  let cols (c : list float) : gmap string (list float) :=
    <["Low" := c]> (<["High" := c]> {["Close" := c]}) in
  let st (n : nat) := mkState {[1%positive := mkDF n (cols (bClose <$> rising n))]} 1%positive ∅ in
  (add_technical_indicators (st 2)).1 = Raise IndexError
  /\ (add_technical_indicators (st 14)).1 = Raise (KeyError "Volume").
Proof. split; vm_compute; reflexivity. Qed.

Lemma get_multiple_stocks_sound_witness :
  let result :=
    (Fetcher.get_multiple_stocks Fetcher.sample_history ["AAPL"; "NODATA"; "MSFT"] "1y"
       (Fetcher.mkIO tt [])).1 in
  result !! "AAPL" = Some (frame_of_series (rising 3))
  /\ "AAPL" ∈ ["AAPL"; "NODATA"; "MSFT"]
  /\ df_empty (frame_of_series (rising 3)) = false.
Proof.
  intros result.
  assert (result !! "AAPL" = Some (frame_of_series (rising 3))) as Hr
    by (vm_compute; reflexivity).
  split; [exact Hr|].
  exact (get_multiple_stocks_sound Fetcher.sample_history
           ["AAPL"; "NODATA"; "MSFT"] "1y" (Fetcher.mkIO tt []) "AAPL" _ Hr).
Defined.

Lemma get_multiple_stocks_stateless_witness :
  let answer := fun ticker => (Fetcher.sample_history ticker "1y" tt).1 in
  (forall ticker w, Fetcher.sample_history ticker "1y" w = (answer ticker, w))
  /\ ((Fetcher.get_multiple_stocks Fetcher.sample_history ["AAPL"; "NODATA"] "1y"
         (Fetcher.mkIO tt [])).1 !! "NODATA" = Some (frame_of_series [])
      <-> "NODATA" ∈ ["AAPL"; "NODATA"]
          /\ answer "NODATA" = Fetcher.Returned (frame_of_series [])
          /\ df_empty (frame_of_series []) = false).
Proof.
  intros answer.
  assert (forall ticker w, Fetcher.sample_history ticker "1y" w = (answer ticker, w)) as Hp.
  { intros ticker []. subst answer. unfold Fetcher.sample_history.
    destruct (String.eqb ticker "AAPL"); [reflexivity|].
    destruct (String.eqb ticker "NODATA"); reflexivity. }
  split; [exact Hp|].
  exact (get_multiple_stocks_stateless Fetcher.sample_history answer
           ["AAPL"; "NODATA"] "1y" (Fetcher.mkIO tt []) "NODATA" _ Hp).
Defined.

Lemma tickers_are_normalised_witness :
  let table : gmap string (list (option string)) :=
    {["Ticker" := [Some " aapl "; None; Some ""]]} in
  "AAPL" ∈ Sheets.get_tickers_from_sheet (Some table) "Ticker"
  /\ "AAPL" <> EmptyString /\ Sheets.strip "AAPL" = "AAPL" /\ Sheets.upper "AAPL" = "AAPL".
Proof.
  intros table.
  assert ("AAPL" ∈ Sheets.get_tickers_from_sheet (Some table) "Ticker") as Hin
    by (vm_compute; repeat constructor).
  split; [exact Hin|].
  exact (tickers_are_normalised (Some table) "Ticker" "AAPL" Hin).
Defined.

Lemma tickers_can_repeat_witness :
  let col := [Some "aapl"; Some "AAPL "] in
  let table : gmap string (list (option string)) := {["Ticker" := col]} in
  table !! "Ticker" = Some col
  /\ Some "aapl" ∈ col /\ Some "AAPL " ∈ col /\ "aapl" <> "AAPL "
  /\ Sheets.strip "aapl" <> EmptyString
  /\ Sheets.upper (Sheets.strip "aapl") = Sheets.upper (Sheets.strip "AAPL ")
  /\ ~ NoDup (Sheets.get_tickers_from_sheet (Some table) "Ticker").
Proof.
  intros col table.
  assert (table !! "Ticker" = Some col) as H1 by (vm_compute; reflexivity).
  assert (Some "aapl" ∈ col) as H2 by (subst col; repeat constructor).
  assert (Some "AAPL " ∈ col) as H3 by (subst col; repeat constructor).
  assert ("aapl" <> "AAPL ") as H4 by discriminate.
  assert (Sheets.strip "aapl" <> EmptyString) as H5 by (vm_compute; discriminate).
  assert (Sheets.upper (Sheets.strip "aapl") = Sheets.upper (Sheets.strip "AAPL ")) as H6
    by (vm_compute; reflexivity).
  split_and!; try assumption.
  exact (tickers_can_repeat table "Ticker" col "aapl" "AAPL " H1 H2 H3 H4 H5 H6).
Defined.

End MoreSamples.
